(** * Collision and motion validity over voxel maps (ompl_voxblox.h)

    A shallow embedding of the validity checkers and motion validators of
    [voxblox_rrt_planner/ompl/ompl_voxblox.h].

    - C++ [double] is binary64, modelled by the kernel's primitive floats;
      [float] (voxblox::FloatingPoint) values are the binary64 values that
      are representable in binary32, produced by [cast_float].
    - The map layers, the ray caster and the sphere enumeration belong to
      the voxblox library and the bounds check to OMPL: they are taken as
      fields of interface records.
    - [last_valid] is a [std::pair<base::State*, double>&]: a possibly-null
      state slot and a fraction, threaded through [checkMotion] together
      with the list of writes performed on it. *)

From Stdlib Require Import ZArith List Bool Lia Floats Permutation.
Import ListNotations.

(** ** Numeric conversions *)

(** [static_cast<double>] of an integer: round to nearest, ties to even. *)
Definition cast_double (z : Z) : float :=
  SF2Prim (binary_normalize prec emax z 0%Z false).

(** Conversion of a [double] to [float] ([cast<voxblox::FloatingPoint>()],
    or an implicit narrowing): rounding to binary32 (24 bits of precision,
    largest exponent 128), kept as the binary64 value it promotes to. *)
Definition cast_float (x : float) : float :=
  match Prim2SF x with
  | S754_finite s m e => SF2Prim (binary_round 24 128 s m e)
  | _ => x
  end.

(** [a >= b] on doubles. *)
Definition geb (a b : float) : bool := (b <=? a)%float.

(** ** Eigen *)

(** [Eigen::Vector3d]; a [voxblox::Point] is one whose components went
    through [cast_float]. *)
Record Vector3d : Set := mkVector3d { x : float; y : float; z : float }.

(** Integer index triples: [voxblox::GlobalIndex] (64-bit components),
    [BlockIndex] and [VoxelIndex] (int components). *)
Record Index3 : Set := mkIndex3 { ix : Z; iy : Z; iz : Z }.

Definition GlobalIndex := Index3.
Definition BlockIndex := Index3.
Definition VoxelIndex := Index3.
Definition Point := Vector3d.

Module Eigen.
Local Open Scope float_scope.

Definition add (a b : Vector3d) : Vector3d :=
  mkVector3d (x a + x b) (y a + y b) (z a + z b).

Definition sub (a b : Vector3d) : Vector3d :=
  mkVector3d (x a - x b) (y a - y b) (z a - z b).

(** [s * v] and [v * s]. *)
Definition scale (s : float) (v : Vector3d) : Vector3d :=
  mkVector3d (s * x v) (s * y v) (s * z v).

(** [v / s]. *)
Definition div (v : Vector3d) (s : float) : Vector3d :=
  mkVector3d (x v / s) (y v / s) (z v / s).

Definition squaredNorm (v : Vector3d) : float :=
  x v * x v + y v * y v + z v * z v.

Definition norm (v : Vector3d) : float := sqrt (squaredNorm v).

(** [normalized()]: the vector itself when its squared norm is not
    positive. *)
Definition normalized (v : Vector3d) : Vector3d :=
  let n2 := squaredNorm v in
  if 0 <? n2 then div v (sqrt n2) else v.

(** [global_index.cast<double>()]. *)
Definition cast_index (g : Index3) : Vector3d :=
  mkVector3d (cast_double (ix g)) (cast_double (iy g)) (cast_double (iz g)).

(** [v.cast<voxblox::FloatingPoint>()]. *)
Definition cast_point (v : Vector3d) : Point :=
  mkVector3d (cast_float (x v)) (cast_float (y v)) (cast_float (z v)).

(** Division of a [voxblox::Point] by a scalar, carried out in [float]. *)
Definition div_point (v : Point) (s : float) : Point :=
  cast_point (div v (cast_float s)).
End Eigen.

(** ** OMPL *)

(** A state of the planner's three-dimensional real vector space. *)
Record State : Set := mkState { values0 : float; values1 : float; values2 : float }.

(** Modelled from the spec: [omplToEigen] of ompl_types.h, which is not
    among the sources; a state is a Position, read off its three values. *)
Definition omplToEigen (state : State) : Vector3d :=
  mkVector3d (values0 state) (values1 state) (values2 state).

(** [base::SpaceInformation], of which only the bounds check is used. *)
Record SpaceInformation : Type := mkSpaceInformation
  { satisfiesBounds : State -> bool }.

(** A call of [checkCollisionWithRobot], as recorded by [isValid]. *)
Inductive Call : Set :=
| CheckCollisionWithRobot (robot_position : Vector3d).

(** ** The output slot of checkMotion *)

(** [std::pair<base::State*, double>]: [first = None] is the null pointer,
    [first = Some s] a pointer to a state whose contents are [s]. *)
Record LastValid : Set := mkLastValid { first : option State; second : float }.

Inductive Write : Set :=
| WriteState (s : State)
| WriteFraction (f : float).

(** The pair the caller passed by reference, with the writes made to it. *)
Record Mem : Set := mkMem { last_valid : LastValid; writes : list Write }.

(** [si_->copyState(last_valid.first, s)]. *)
Definition copyState (s : State) (m : Mem) : Mem :=
  mkMem (mkLastValid (Some s) (second (last_valid m)))
        (writes m ++ [WriteState s]).

(** [last_valid.second = f]. *)
Definition assign_second (f : float) (m : Mem) : Mem :=
  mkMem (mkLastValid (first (last_valid m)) f)
        (writes m ++ [WriteFraction f]).

(** The block every failing branch of both validators runs:
    [if (last_valid.first != nullptr) { last_valid_state->values[..] = pos;
    si_->copyState(last_valid.first, last_valid_state.get()); }
    last_valid.second = fraction;]. *)
Definition report (pos : Vector3d) (fraction : float) (m : Mem) : Mem :=
  let m1 :=
    match first (last_valid m) with
    | Some _ => copyState (mkState (x pos) (y pos) (z pos)) m
    | None => m
    end in
  assign_second fraction m1.

(** [std::pair<base::State*, double> unused;] of the two-argument form. *)
Definition unused : Mem := mkMem (mkLastValid None 0%float) [].

(** ** The voxblox map interfaces *)

(** [voxblox::TsdfVoxel]: the fields the checker reads. *)
Record TsdfVoxel : Set := mkTsdfVoxel { tsdf_distance : float; weight : float }.

(** [voxblox::EsdfVoxel]. *)
Record EsdfVoxel : Set := mkEsdfVoxel { distance : float }.

(** [voxblox::Block<TsdfVoxel>]. *)
Record TsdfBlock : Type := mkTsdfBlock
  { isValidVoxelIndex : VoxelIndex -> bool;
    getVoxelByVoxelIndex : VoxelIndex -> TsdfVoxel }.

(** [voxblox::HierarchicalIndexMap]: the voxel indices to visit, by block,
    in the order the map is iterated. *)
Definition HierarchicalIndexMap := list (BlockIndex * list VoxelIndex).

(** [voxblox::Layer<TsdfVoxel>], with [utils::getSphereAroundPoint] over it
    ([center] and [radius] are FloatingPoint arguments) and the library's
    [kEpsilon]. *)
Record TsdfLayer : Type := mkTsdfLayer
  { tsdf_voxel_size : float;
    getBlockPtrByIndex : BlockIndex -> option TsdfBlock;
    getSphereAroundPoint : Point -> float -> HierarchicalIndexMap;
    kEpsilon : float }.

(** [voxblox::Layer<EsdfVoxel>], with the lookup of the
    [voxblox::Interpolator<EsdfVoxel>] built over it:
    [getDistance pos interpolate] is [Some d] when the call succeeds and
    stores [d], [None] when it fails. *)
Record EsdfLayer : Type := mkEsdfLayer
  { esdf_voxel_size : float;
    getVoxelPtrByGlobalIndex : GlobalIndex -> option EsdfVoxel;
    getDistance : Point -> bool -> option float }.

(** ** VoxbloxValidityChecker<VoxelType> *)

Module VoxbloxValidityChecker.

(** The class as its two virtual members and the data [isValid] and the
    motion validator read. *)
Record t : Type := mk
  { si_ : SpaceInformation;
    voxel_size_ : float;
    checkCollisionWithRobot : Vector3d -> bool;
    checkCollisionWithRobotAtVoxel : GlobalIndex -> bool }.

Definition voxel_size (self : t) : float := voxel_size_ self.

(** [isValid], with the calls of [checkCollisionWithRobot] it makes. *)
Definition isValid_calls (self : t) (state : State) : bool * list Call :=
  let robot_position := omplToEigen state in
  if negb (satisfiesBounds (si_ self) state) then (false, [])
  else
    let collision := checkCollisionWithRobot self robot_position in
    (negb collision, [CheckCollisionWithRobot robot_position]).

Definition isValid (self : t) (state : State) : bool :=
  fst (isValid_calls self state).

(** The base class's [checkCollisionWithRobotAtVoxel], in terms of the
    position-based check of the derived class. *)
Definition default_checkCollisionWithRobotAtVoxel
    (voxel_size_ : float) (checkCollisionWithRobot : Vector3d -> bool)
    (global_index : GlobalIndex) : bool :=
  checkCollisionWithRobot (Eigen.scale voxel_size_ (Eigen.cast_index global_index)).

End VoxbloxValidityChecker.

(** ** TsdfVoxbloxValidityChecker *)

Module TsdfVoxbloxValidityChecker.
Local Open Scope float_scope.

Record t : Type := mk
  { si_ : SpaceInformation;
    robot_radius_ : float;
    layer_ : TsdfLayer;
    treat_unknown_as_occupied_ : bool }.

(** The constructor: the flag starts out false. *)
Definition make (space_info : SpaceInformation) (robot_radius : float)
    (tsdf_layer : TsdfLayer) : t :=
  mk space_info robot_radius tsdf_layer false.

Definition getTreatUnknownAsOccupied (self : t) : bool :=
  treat_unknown_as_occupied_ self.

Definition setTreatUnknownAsOccupied (treat_unknown_as_occupied : bool)
    (self : t) : t :=
  mk (si_ self) (robot_radius_ self) (layer_ self) treat_unknown_as_occupied.

(** The inner loop over the voxels of one block: [true] when the
    function returns [true] from inside it. *)
Fixpoint voxel_loop (self : t) (block : TsdfBlock) (l : list VoxelIndex) : bool :=
  match l with
  | [] => false
  | voxel_index :: rest =>
      if negb (isValidVoxelIndex block voxel_index) then
        if treat_unknown_as_occupied_ self then true
        else voxel_loop self block rest
      else
        let tsdf_voxel := getVoxelByVoxelIndex block voxel_index in
        if weight tsdf_voxel <? kEpsilon (layer_ self) then
          if treat_unknown_as_occupied_ self then true
          else voxel_loop self block rest
        else if tsdf_distance tsdf_voxel <=? 0 then true
        else voxel_loop self block rest
  end.

(** The outer loop over [block_voxel_list]. *)
Fixpoint block_loop (self : t) (block_voxel_list : HierarchicalIndexMap) : bool :=
  match block_voxel_list with
  | [] => false
  | kv :: rest =>
      match getBlockPtrByIndex (layer_ self) (fst kv) with
      | None => block_loop self rest
      | Some block_ptr =>
          if voxel_loop self block_ptr (snd kv) then true
          else block_loop self rest
      end
  end.

Definition checkCollisionWithRobot (self : t) (robot_position : Vector3d) : bool :=
  let robot_point := Eigen.cast_point robot_position in
  let block_voxel_list :=
    getSphereAroundPoint (layer_ self) robot_point
                         (cast_float (robot_radius_ self)) in
  block_loop self block_voxel_list.

(** The checker as a [VoxbloxValidityChecker]: it keeps the base class's
    [checkCollisionWithRobotAtVoxel]. *)
Definition checker (self : t) : VoxbloxValidityChecker.t :=
  let voxel_size := tsdf_voxel_size (layer_ self) in
  VoxbloxValidityChecker.mk (si_ self) voxel_size
    (checkCollisionWithRobot self)
    (VoxbloxValidityChecker.default_checkCollisionWithRobotAtVoxel
       voxel_size (checkCollisionWithRobot self)).

End TsdfVoxbloxValidityChecker.

(** ** EsdfVoxbloxValidityChecker *)

Module EsdfVoxbloxValidityChecker.

Record t : Type := mk
  { si_ : SpaceInformation;
    robot_radius_ : float;
    layer_ : EsdfLayer }.

Definition checkCollisionWithRobot (self : t) (robot_position : Vector3d) : bool :=
  let interpolate := false in
  match getDistance (layer_ self) (Eigen.cast_point robot_position) interpolate with
  | None => true
  | Some distance => geb (robot_radius_ self) distance
  end.

Definition checkCollisionWithRobotAtVoxel (self : t) (global_index : GlobalIndex) : bool :=
  match getVoxelPtrByGlobalIndex (layer_ self) global_index with
  | None => true
  | Some voxel => geb (robot_radius_ self) (distance voxel)
  end.

(** The checker as a [VoxbloxValidityChecker], with its own override of
    [checkCollisionWithRobotAtVoxel]. *)
Definition checker (self : t) : VoxbloxValidityChecker.t :=
  VoxbloxValidityChecker.mk (si_ self) (esdf_voxel_size (layer_ self))
    (checkCollisionWithRobot self)
    (checkCollisionWithRobotAtVoxel self).

End EsdfVoxbloxValidityChecker.

(** ** CbloxValidityChecker *)

Module CbloxValidityChecker.
Local Open Scope float_scope.

Record t : Type := mk
  { si_ : SpaceInformation;
    robot_radius_ : float;
    get_map_distance_ : Vector3d -> float }.

Definition checkCollisionWithRobot (self : t) (robot_position : Vector3d) : bool :=
  let distance := get_map_distance_ self robot_position in
  geb (robot_radius_ self) distance.

Definition isValid_calls (self : t) (state : State) : bool * list Call :=
  let robot_position := omplToEigen state in
  if negb (satisfiesBounds (si_ self) state) then (false, [])
  else
    let collision := checkCollisionWithRobot self robot_position in
    (negb collision, [CheckCollisionWithRobot robot_position]).

Definition isValid (self : t) (state : State) : bool :=
  fst (isValid_calls self state).

Definition remainingDistanceToCollision (self : t) (position : Vector3d) : float :=
  get_map_distance_ self position - robot_radius_ self.

End CbloxValidityChecker.

(** ** VoxbloxMotionValidator<VoxelType> *)

Module VoxbloxMotionValidator.

(** The validator holds its checker; [castRay] is voxblox's ray caster
    ([voxblox/integrator/integrator_utils.h]), which fills [indices] from
    the two scaled end points. *)
Record t : Type := mk
  { validity_checker_ : VoxbloxValidityChecker.t;
    castRay : Point -> Point -> list GlobalIndex }.

(** The [for] loop of [checkMotion] from index [i] on, over the indices
    not yet visited; [size] is [indices.size()]. *)
Fixpoint for_loop (self : t) (voxel_size : float) (size : nat) (i : nat)
    (rest : list GlobalIndex) (m : Mem) : bool * Mem :=
  match rest with
  | [] => (true, m)
  | global_index :: rest' =>
      let pos := Eigen.scale voxel_size (Eigen.cast_index global_index) in
      let collision :=
        VoxbloxValidityChecker.checkCollisionWithRobotAtVoxel
          (validity_checker_ self) global_index in
      if collision then
        (false, report pos (cast_double (Z.of_nat (i / size))) m)
      else for_loop self voxel_size size (S i) rest' m
  end.

(** The indices [castRay] yields for the segment from [s1] to [s2]. *)
Definition indices (self : t) (s1 s2 : State) : list GlobalIndex :=
  let start := omplToEigen s1 in
  let goal := omplToEigen s2 in
  let voxel_size := VoxbloxValidityChecker.voxel_size (validity_checker_ self) in
  let start_scaled := Eigen.div_point (Eigen.cast_point start) voxel_size in
  let goal_scaled := Eigen.div_point (Eigen.cast_point goal) voxel_size in
  castRay self start_scaled goal_scaled.

(** [checkMotion(s1, s2, last_valid)]. *)
Definition checkMotion (self : t) (s1 s2 : State) (m : Mem) : bool * Mem :=
  let voxel_size := VoxbloxValidityChecker.voxel_size (validity_checker_ self) in
  let indices := indices self s1 s2 in
  for_loop self voxel_size (length indices) 0 indices m.

(** [checkMotion(s1, s2)]. *)
Definition checkMotion2 (self : t) (s1 s2 : State) : bool :=
  fst (checkMotion self s1 s2 unused).

End VoxbloxMotionValidator.

(** ** CbloxMotionValidator *)

Module CbloxMotionValidator.
Local Open Scope float_scope.

Record t : Type := mk
  { validity_checker_ : CbloxValidityChecker.t;
    voxel_size_ : float }.

(** How the [while] loop is left: by a [return] of the function, or by its
    condition turning false at [position]. *)
Inductive LoopExit : Set :=
| Return (result : bool)
| Break (position : Vector3d).

(** The literal [1.0e-2]. *)
Definition near_zero : float := 0x1.47ae147ae147bp-7.

(** The [while] loop of [checkMotion]; [None] when [fuel] iterations did
    not suffice. *)
Fixpoint while_loop (fuel : nat) (self : t) (start ray_direction : Vector3d)
    (ray_length step_size step_size_temp : float)
    (position : Vector3d) (m : Mem) : option (LoopExit * Mem) :=
  match fuel with
  | O => None
  | S fuel' =>
      if Eigen.norm (Eigen.sub position start) <? ray_length then
        let collision :=
          CbloxValidityChecker.checkCollisionWithRobot (validity_checker_ self) position in
        let remaining_distance :=
          CbloxValidityChecker.remainingDistanceToCollision (validity_checker_ self) position in
        if collision then
          let last_position :=
            Eigen.sub position (Eigen.scale step_size_temp ray_direction) in
          Some (Return false,
                report last_position
                       (Eigen.norm (Eigen.sub last_position start) / ray_length) m)
        else if remaining_distance <? step_size then
          if remaining_distance <? near_zero then
            let last_position :=
              Eigen.sub position (Eigen.scale step_size_temp ray_direction) in
            Some (Return false,
                  report last_position
                         (Eigen.norm (Eigen.sub last_position start) / ray_length) m)
          else
            while_loop fuel' self start ray_direction ray_length step_size step_size_temp
              (Eigen.add position (Eigen.scale remaining_distance ray_direction)) m
        else
          while_loop fuel' self start ray_direction ray_length step_size step_size_temp
            (Eigen.add position (Eigen.scale step_size ray_direction)) m
      else Some (Break position, m)
  end.

(** [checkMotion(s1, s2, last_valid)], with [fuel] bounding the number of
    iterations of the loop. *)
Definition checkMotion (fuel : nat) (self : t) (s1 s2 : State) (m : Mem)
    : option (bool * Mem) :=
  let start := omplToEigen s1 in
  let goal := omplToEigen s2 in
  let ray_direction := Eigen.normalized (Eigen.sub goal start) in
  let ray_length := Eigen.norm (Eigen.sub goal start) in
  let step_size := cast_float (voxel_size_ self / 2) in
  let step_size_temp := step_size in
  let position := start in
  match while_loop fuel self start ray_direction ray_length step_size step_size_temp
                   position m with
  | None => None
  | Some (Return result, m') => Some (result, m')
  | Some (Break position, m') =>
      let collision :=
        CbloxValidityChecker.checkCollisionWithRobot (validity_checker_ self) goal in
      if collision then
        Some (false,
              report position (Eigen.norm (Eigen.sub position start) / ray_length) m')
      else Some (true, m')
  end.

(** [checkMotion(s1, s2)]. *)
Definition checkMotion2 (fuel : nat) (self : t) (s1 s2 : State) : option bool :=
  option_map fst (checkMotion fuel self s1 s2 unused).

End CbloxMotionValidator.

(** ** Properties named by the specification *)

Module Spec.
Local Open Scope float_scope.

(** A voxel the occupancy scan would count as unobserved: its block is not
    allocated, its index is not valid in the block, or its weight is below
    [kEpsilon]. *)
Definition unobserved (layer : TsdfLayer) (b : BlockIndex) (v : VoxelIndex) : bool :=
  match getBlockPtrByIndex layer b with
  | None => true
  | Some block =>
      negb (isValidVoxelIndex block v)
      || (weight (getVoxelByVoxelIndex block v) <? kEpsilon layer)
  end.

(** The enumerated sphere holds unobserved voxels only. *)
Definition wholly_unobserved (layer : TsdfLayer) (l : HierarchicalIndexMap) : bool :=
  forallb (fun kv => forallb (unobserved layer (fst kv)) (snd kv)) l.

(** Some enumerated voxel lies in an allocated block. *)
Definition reaches_allocated_block (layer : TsdfLayer) (l : HierarchicalIndexMap) : bool :=
  existsb (fun kv =>
             match getBlockPtrByIndex layer (fst kv), snd kv with
             | Some _, _ :: _ => true
             | _, _ => false
             end) l.

(** The sphere the occupancy scan enumerates around a position. *)
Definition sphere (self : TsdfVoxbloxValidityChecker.t) (robot_position : Vector3d)
    : HierarchicalIndexMap :=
  getSphereAroundPoint (TsdfVoxbloxValidityChecker.layer_ self)
    (Eigen.cast_point robot_position)
    (cast_float (TsdfVoxbloxValidityChecker.robot_radius_ self)).

(** A fraction of the segment: a double between 0 and 1. *)
Definition in_unit_interval (f : float) : bool := (0 <=? f) && (f <=? 1).

(** Every (block, voxel) pair of [l1] is a pair of [l2]. *)
Definition sphere_included (l1 l2 : HierarchicalIndexMap) : Prop :=
  forall b v vs, In (b, vs) l1 -> In v vs ->
    exists vs', In (b, vs') l2 /\ In v vs'.

(** The metric position of a grid index: [index * voxel_size]. *)
Definition position_of_index (voxel_size : float) (g : GlobalIndex) : Vector3d :=
  Eigen.scale voxel_size (Eigen.cast_index g).

(** The verdict of the occupancy scan on one voxel of an allocated block. *)
Definition voxel_hit (layer : TsdfLayer) (treat_unknown_as_occupied : bool)
    (block : TsdfBlock) (v : VoxelIndex) : bool :=
  if negb (isValidVoxelIndex block v) then treat_unknown_as_occupied
  else if weight (getVoxelByVoxelIndex block v) <? kEpsilon layer
       then treat_unknown_as_occupied
       else tsdf_distance (getVoxelByVoxelIndex block v) <=? 0.

(** [a <= b] holds on doubles. *)
Definition le (a b : float) : Prop := (a <=? b) = true.

(** What a call of checkMotion that answered [valid] may have done to the
    pair it was given: nothing when the answer is valid; on an invalid
    answer one write of the fraction, preceded by one write of the state
    exactly when the state slot is not null. *)
Definition output_frame (valid : bool) (m m' : Mem) : Prop :=
  if valid then m' = m
  else
    exists (pos : Vector3d) (fraction : float),
      second (last_valid m') = fraction /\
      match first (last_valid m) with
      | Some _ =>
          first (last_valid m') = Some (mkState (x pos) (y pos) (z pos)) /\
          writes m' =
          writes m ++ [WriteState (mkState (x pos) (y pos) (z pos));
                       WriteFraction fraction]
      | None =>
          first (last_valid m') = None /\
          writes m' = writes m ++ [WriteFraction fraction]
      end.

End Spec.

(** ** Concrete maps and segments *)

Module Scenario.
Local Open Scope float_scope.

Definition index3_eqb (a b : Index3) : bool :=
  (ix a =? ix b)%Z && (iy a =? iy b)%Z && (iz a =? iz b)%Z.

(** Bounds: the cube of half-width [h] around the origin. *)
Definition cube (h : float) : SpaceInformation :=
  mkSpaceInformation (fun s =>
    (abs (values0 s) <=? h) && (abs (values1 s) <=? h) && (abs (values2 s) <=? h)).

Definition origin : State := mkState 0 0 0.
Definition on_x (a : float) : State := mkState a 0 0.

(** A pair whose state slot is requested, and one whose slot is null. *)
Definition slot : Mem := mkMem (mkLastValid (Some origin) 0) [].
Definition no_slot : Mem := unused.

(** *** A signed-distance layer with an obstacle at voxel (2,0,0)

    Voxel size 1; voxels (0,0,0), (1,0,0) are free at distance 8, voxel
    (2,0,0) is at distance 0; nothing else is allocated.  The point lookup
    reads the voxel whose cell contains the point. *)
Definition esdf_voxels (g : GlobalIndex) : option EsdfVoxel :=
  if index3_eqb g (mkIndex3 0 0 0) then Some (mkEsdfVoxel 8)
  else if index3_eqb g (mkIndex3 1 0 0) then Some (mkEsdfVoxel 8)
  else if index3_eqb g (mkIndex3 2 0 0) then Some (mkEsdfVoxel 0)
  else None.

Definition in_cell (a lo : float) : bool := (lo <=? a) && (a <? lo + 1).

Definition esdf_lookup (p : Point) (interpolate : bool) : option float :=
  if in_cell (y p) 0 && in_cell (z p) 0 then
    if in_cell (x p) 0 then Some 8
    else if in_cell (x p) 1 then Some 8
    else if in_cell (x p) 2 then Some 0
    else None
  else None.

Definition esdf_layer : EsdfLayer := mkEsdfLayer 1 esdf_voxels esdf_lookup.

Definition esdf_checker (si : SpaceInformation) (robot_radius : float)
    : EsdfVoxbloxValidityChecker.t :=
  EsdfVoxbloxValidityChecker.mk si robot_radius esdf_layer.

(** A ray caster that walks along the x axis from the cell of the start to
    the cell of the goal, for end points in the first three cells. *)
Definition cell (a : float) : Z :=
  if a <? 1 then 0%Z else if a <? 2 then 1%Z else 2%Z.

Definition x_ray (start_scaled goal_scaled : Point) : list GlobalIndex :=
  let a := cell (x start_scaled) in
  let b := cell (x goal_scaled) in
  map (fun k => mkIndex3 (a + Z.of_nat k) 0 0) (seq 0 (S (Z.to_nat (b - a)))).

Definition grid_validator (si : SpaceInformation) (robot_radius : float)
    : VoxbloxMotionValidator.t :=
  VoxbloxMotionValidator.mk
    (EsdfVoxbloxValidityChecker.checker (esdf_checker si robot_radius)) x_ray.

(** *** Distance functions for the adaptive-stepping validator *)

(** Every position touches an obstacle. *)
Definition blocked (p : Vector3d) : float := 0.

(** Every position is far from any obstacle. *)
Definition clear (p : Vector3d) : float := 8.

(** Only the plane [x = 0.25] is blocked. *)
Definition blocked_at_quarter (p : Vector3d) : float :=
  if x p =? 0.25 then 0 else 8.

(** Clearance 0.5 on the plane [x = 0], none elsewhere. *)
Definition half_then_blocked (p : Vector3d) : float :=
  if x p =? 0 then 0.5 else 0.

(** Clearance 1 on the plane [x = 0], an obstacle on the plane [x = 1],
    clearance 8 elsewhere. *)
Definition thin_wall (p : Vector3d) : float :=
  if x p =? 0 then 1 else if x p =? 1 then 0 else 8.

Definition cblox_validator (si : SpaceInformation) (robot_radius : float)
    (f : Vector3d -> float) (voxel_size : float) : CbloxMotionValidator.t :=
  CbloxMotionValidator.mk (CbloxValidityChecker.mk si robot_radius f) voxel_size.

(** *** A signed-distance layer far from the origin

    Voxel size 1; voxel (2^24,0,0) is free at distance 8 and its neighbour
    (2^24+1,0,0) is at distance 0.  The point lookup reads the voxel whose
    cell contains the point. *)
Definition far : Z := 16777216.

Definition far_voxels (g : GlobalIndex) : option EsdfVoxel :=
  if index3_eqb g (mkIndex3 far 0 0) then Some (mkEsdfVoxel 8)
  else if index3_eqb g (mkIndex3 (far + 1) 0 0) then Some (mkEsdfVoxel 0)
  else None.

Definition far_lookup (p : Point) (interpolate : bool) : option float :=
  if in_cell (y p) 0 && in_cell (z p) 0 then
    if in_cell (x p) 16777216 then Some 8
    else if in_cell (x p) 16777217 then Some 0
    else None
  else None.

Definition far_layer : EsdfLayer := mkEsdfLayer 1 far_voxels far_lookup.

Definition far_checker : EsdfVoxbloxValidityChecker.t :=
  EsdfVoxbloxValidityChecker.mk (cube 0x1p+30) 0.5 far_layer.

(** *** Occupancy layers *)

(** The binary32 value of [1e-6]. *)
Definition epsilon : float := 0x1.0c6f7ap-20.

Definition b0 : BlockIndex := mkIndex3 0 0 0.
Definition v0 : VoxelIndex := mkIndex3 0 0 0.
Definition v1 : VoxelIndex := mkIndex3 1 0 0.

(** No block is allocated; the sphere names two voxels of block [b0]. *)
Definition unallocated_layer : TsdfLayer :=
  mkTsdfLayer 1 (fun _ => None) (fun _ _ => [(b0, [v0; v1])]) epsilon.

(** Block [b0] is allocated and none of its voxels has been observed. *)
Definition unseen_block : TsdfBlock :=
  mkTsdfBlock (fun _ => true) (fun _ => mkTsdfVoxel 0 0).

Definition unseen_layer : TsdfLayer :=
  mkTsdfLayer 1
    (fun b => if index3_eqb b b0 then Some unseen_block else None)
    (fun _ _ => [(b0, [v0; v1])]) epsilon.

(** Block [b0] is allocated; voxel [v0] is observed free, every other voxel
    observed inside an obstacle.  The sphere holds [v0] for a radius below
    1 and [v0; v1] from 1 on. *)
Definition wall_block : TsdfBlock :=
  mkTsdfBlock (fun _ => true)
    (fun v => if index3_eqb v v0 then mkTsdfVoxel 1 1 else mkTsdfVoxel (-1) 1).

Definition wall_layer : TsdfLayer :=
  mkTsdfLayer 1
    (fun b => if index3_eqb b b0 then Some wall_block else None)
    (fun _ r => if r <? 1 then [(b0, [v0])] else [(b0, [v0; v1])]) epsilon.

Definition tsdf_checker (layer : TsdfLayer) (robot_radius : float)
    : TsdfVoxbloxValidityChecker.t :=
  TsdfVoxbloxValidityChecker.make (cube 100) robot_radius layer.

(** *** An occupancy layer whose sphere is sampled in unit steps

    The enumeration walks the x axis of the lattice in unit steps from
    [center - radius] (in voxels) up to [center + radius] and takes the
    floor of every sample.  All voxels are observed; the voxel at x = 1 is
    inside an obstacle, every other one free. *)
Definition floorZ (a : float) : Z :=
  match Prim2SF a with
  | S754_finite s m e => Z.shiftl (if s then Zneg m else Zpos m) e
  | _ => 0%Z
  end.

Definition stepped_sphere (voxel_size : float) (center : Point) (radius : float)
    : HierarchicalIndexMap :=
  let radius_in_voxels := radius / voxel_size in
  let center_index := floorZ (x center / voxel_size) in
  let samples := S (Z.to_nat (floorZ (radius_in_voxels + radius_in_voxels))) in
  [(b0,
    map (fun k =>
           mkIndex3 (center_index
                     + floorZ (- radius_in_voxels + cast_double (Z.of_nat k))) 0 0)
        (seq 0 samples))].

Definition post_block : TsdfBlock :=
  mkTsdfBlock (fun _ => true)
    (fun v => if index3_eqb v v1 then mkTsdfVoxel (-1) 1 else mkTsdfVoxel 1 1).

Definition post_layer : TsdfLayer :=
  mkTsdfLayer 1
    (fun b => if index3_eqb b b0 then Some post_block else None)
    (stepped_sphere 1) epsilon.

End Scenario.


(** ** Further maps and segments *)

Module Edge.
Local Open Scope float_scope.

(** A distance function whose value is not a number. *)
Definition undefined_distance (p : Vector3d) : float := nan.

(** A signed-distance layer whose one voxel, at the origin, stores a
    distance that is not a number. *)
Definition nan_layer : EsdfLayer :=
  mkEsdfLayer 1
    (fun g => if Scenario.index3_eqb g (mkIndex3 0 0 0)
              then Some (mkEsdfVoxel nan) else None)
    (fun p _ => if Scenario.in_cell (x p) 0 then Some nan else None).

(** A segment of length 2^20 that starts at x = 2^60, where the spacing of
    doubles is 256. *)
Definition remote_start : State := mkState 0x1p+60 0 0.
Definition remote_goal : State := mkState 0x1.00000000010p+60 0 0.

(** The same blocks in two iteration orders: block [b0] holds the free
    voxel [v0] and obstacle voxels, block [b1] is not allocated. *)
Definition b1 : BlockIndex := mkIndex3 1 0 0.

Definition sphere_one_way : HierarchicalIndexMap :=
  [(Scenario.b0, [Scenario.v0; Scenario.v1]); (b1, [Scenario.v0])].

Definition sphere_other_way : HierarchicalIndexMap :=
  [(b1, [Scenario.v0]); (Scenario.b0, [Scenario.v0; Scenario.v1])].

(** *** Ray casters *)

(** A ray caster that starts in the cell holding the scaled start (the
    floor of its coordinates) and walks the x axis in unit steps to the
    cell of the scaled goal. *)
Definition floor_ray (start_scaled goal_scaled : Point) : list GlobalIndex :=
  let a := Scenario.floorZ (x start_scaled) in
  let b := Scenario.floorZ (x goal_scaled) in
  map (fun k =>
         mkIndex3 (a + Z.of_nat k) (Scenario.floorZ (y start_scaled))
                  (Scenario.floorZ (z start_scaled)))
      (seq 0 (S (Z.to_nat (b - a)))).

(** A ray caster that yields no index. *)
Definition empty_ray (start_scaled goal_scaled : Point) : list GlobalIndex := [].

(** *** A signed-distance layer of voxel size 0.1

    The voxel size is the binary32 value of 0.1.  Voxel (6,0,0) is free at
    distance 8, voxel (7,0,0) is at distance 0.  The point lookup reads the
    voxel whose cell, from [g * voxel_size] up to [(g + 1) * voxel_size],
    contains the point. *)
Definition tenth : float := 0x1.99999ap-4.

Definition tenth_voxels (g : GlobalIndex) : option EsdfVoxel :=
  if Scenario.index3_eqb g (mkIndex3 6 0 0) then Some (mkEsdfVoxel 8)
  else if Scenario.index3_eqb g (mkIndex3 7 0 0) then Some (mkEsdfVoxel 0)
  else None.

Definition in_tenth_cell (a : float) (g : Z) : bool :=
  (cast_double g * tenth <=? a) && (a <? cast_double (g + 1) * tenth).

Definition tenth_lookup (p : Point) (interpolate : bool) : option float :=
  if in_tenth_cell (y p) 0 && in_tenth_cell (z p) 0 then
    if in_tenth_cell (x p) 6 then Some 8
    else if in_tenth_cell (x p) 7 then Some 0
    else None
  else None.

Definition tenth_layer : EsdfLayer := mkEsdfLayer tenth tenth_voxels tenth_lookup.

(** The binary32 value of 0.7, a point of the cell of voxel (6,0,0). *)
Definition seven_tenths : State := mkState 0x1.666666p-1 0 0.

(** *** An occupancy layer whose sphere is centred on the query point

    The enumeration walks the x axis in unit steps from
    [center - radius] (in voxels) up to [center + radius] and takes the
    floor of every sample.  All voxels are observed; the voxel at x = 1 is
    inside an obstacle, every other one free. *)
Definition centred_sphere (voxel_size : float) (center : Point) (radius : float)
    : HierarchicalIndexMap :=
  let radius_in_voxels := radius / voxel_size in
  let first_sample := x center / voxel_size - radius_in_voxels in
  let samples := S (Z.to_nat (Scenario.floorZ (radius_in_voxels + radius_in_voxels))) in
  [(Scenario.b0,
    map (fun k => mkIndex3 (Scenario.floorZ (first_sample + cast_double (Z.of_nat k))) 0 0)
        (seq 0 samples))].

Definition reach_layer : TsdfLayer :=
  mkTsdfLayer 1
    (fun b => if Scenario.index3_eqb b Scenario.b0 then Some Scenario.post_block else None)
    (centred_sphere 1) Scenario.epsilon.

End Edge.

(** * Properties *)

(** ** Order on doubles *)

Section FloatOrder.
Local Open Scope float_scope.

Lemma SFcompare_diag_not_lt (f : spec_float) : SFcompare f f <> Some Lt.
Proof.
  destruct f as [s | s | | s m e]; simpl; try destruct s; try discriminate;
    rewrite Z.compare_refl, Pos.compare_cont_refl; discriminate.
Qed.

(** [a < a] is false for every double, NaN included. *)
Lemma ltb_irrefl (a : float) : (a <? a) = false.
Proof.
  rewrite ltb_spec. unfold SFltb.
  pose proof (SFcompare_diag_not_lt (Prim2SF a)) as H.
  destruct (SFcompare (Prim2SF a) (Prim2SF a)) as [[]|]; congruence.
Qed.

Lemma Prim2SF_not_nan (a : float) : is_nan a = false -> Prim2SF a <> S754_nan.
Proof.
  intro H. unfold Prim2SF. rewrite H.
  destruct (is_zero a); [discriminate|].
  destruct (is_infinity a); [discriminate|].
  destruct (Z.frexp a) as [r e].
  destruct (shr_fexp prec emax _ _ _) as [sh e'].
  destruct (shr_m sh); discriminate.
Qed.

(** [a <= a] for every double that is not NaN. *)
Lemma leb_refl (a : float) : is_nan a = false -> (a <=? a) = true.
Proof.
  intro H. apply Prim2SF_not_nan in H.
  rewrite leb_spec. unfold SFleb.
  destruct (Prim2SF a) as [s | s | | s m e]; simpl;
    try congruence; try destruct s; try reflexivity;
    rewrite Z.compare_refl, Pos.compare_cont_refl; reflexivity.
Qed.

Ltac split_compare :=
  repeat match goal with
    | H : context [Z.compare ?a ?b] |- _ =>
        destruct (Z.compare_spec a b); try discriminate
    | |- context [Z.compare ?a ?b] => destruct (Z.compare_spec a b)
    end;
  try reflexivity; try lia; subst;
  repeat match goal with
    | H : context [Pos.compare_cont Eq ?a ?b] |- _ =>
        change (Pos.compare_cont Eq a b) with (Pos.compare a b) in H;
        destruct (Pos.compare_spec a b); try discriminate
    | |- context [Pos.compare_cont Eq ?a ?b] =>
        change (Pos.compare_cont Eq a b) with (Pos.compare a b);
        destruct (Pos.compare_spec a b)
    end.

Lemma SFleb_trans (f g h : spec_float) :
  SFleb f g = true -> SFleb g h = true -> SFleb f h = true.
Proof.
  unfold SFleb.
  destruct f as [sf | sf | | sf mf ef], g as [sg | sg | | sg mg eg],
           h as [sh | sh | | sh mh eh];
    simpl; try discriminate; try reflexivity;
    repeat match goal with s : bool |- _ => destruct s end; simpl;
    try discriminate; try reflexivity; intros H1 H2;
    split_compare; simpl in *; try reflexivity; try discriminate; try lia.
Qed.

Lemma leb_trans (a b c : float) :
  (a <=? b) = true -> (b <=? c) = true -> (a <=? c) = true.
Proof. rewrite !leb_spec. apply SFleb_trans. Qed.

(** Equal doubles are ordered. *)
Lemma eqb_leb (a b : float) : (a =? b) = true -> (a <=? b) = true.
Proof.
  rewrite eqb_spec, leb_spec. unfold SFeqb, SFleb.
  destruct (SFcompare (Prim2SF a) (Prim2SF b)) as [[]|]; congruence.
Qed.

(** A larger radius reaches whatever a smaller one reaches. *)
Lemma geb_mono (r1 r2 d : float) :
  (r1 <=? r2) = true -> geb r1 d = true -> geb r2 d = true.
Proof. unfold geb. intros H12 H1. exact (leb_trans _ _ _ H1 H12). Qed.

End FloatOrder.

(** ** The output slot *)

Lemma report_second (pos : Vector3d) (f : float) (m : Mem) :
  second (last_valid (report pos f m)) = f.
Proof. unfold report. destruct (first (last_valid m)); reflexivity. Qed.

Lemma report_first (pos : Vector3d) (f : float) (m : Mem) :
  first (last_valid (report pos f m)) =
  match first (last_valid m) with
  | Some _ => Some (mkState (x pos) (y pos) (z pos))
  | None => None
  end.
Proof.
  unfold report. destruct (first (last_valid m)) eqn:E; simpl; [reflexivity|].
  exact E.
Qed.

Lemma report_writes (pos : Vector3d) (f : float) (m : Mem) :
  writes (report pos f m) =
  writes m ++
  match first (last_valid m) with
  | Some _ => [WriteState (mkState (x pos) (y pos) (z pos)); WriteFraction f]
  | None => [WriteFraction f]
  end.
Proof.
  unfold report. destruct (first (last_valid m)); simpl; [|reflexivity].
  rewrite <- app_assoc. reflexivity.
Qed.

(** ** The grid-traversal loop *)

Section GridLoop.
Variable self : VoxbloxMotionValidator.t.
Variable voxel_size : float.
Variable size : nat.

Let collides (g : GlobalIndex) : bool :=
  VoxbloxValidityChecker.checkCollisionWithRobotAtVoxel
    (VoxbloxMotionValidator.validity_checker_ self) g.

(** The loop over a prefix of free indices followed by a colliding one
    stops there. *)
Lemma for_loop_first_collision (pre post : list GlobalIndex) (g : GlobalIndex) :
  forall (i : nat) (m : Mem),
    forallb (fun h => negb (collides h)) pre = true ->
    collides g = true ->
    VoxbloxMotionValidator.for_loop self voxel_size size i (pre ++ g :: post) m =
    (false,
     report (Spec.position_of_index voxel_size g)
            (cast_double (Z.of_nat ((i + length pre) / size))) m).
Proof.
  induction pre as [| h pre IH]; intros i m Hpre Hg; simpl.
  - unfold collides in Hg. rewrite Hg, Nat.add_0_r. reflexivity.
  - simpl in Hpre. apply andb_true_iff in Hpre as [Hh Hpre].
    apply negb_true_iff in Hh. unfold collides in Hh. rewrite Hh.
    rewrite (IH (S i) m Hpre Hg).
    replace (S i + length pre)%nat with (i + S (length pre))%nat by lia.
    reflexivity.
Qed.

(** The loop over free indices only runs to its end and writes nothing. *)
Lemma for_loop_no_collision (l : list GlobalIndex) :
  forall (i : nat) (m : Mem),
    forallb (fun h => negb (collides h)) l = true ->
    VoxbloxMotionValidator.for_loop self voxel_size size i l m = (true, m).
Proof.
  induction l as [| h l IH]; intros i m Hl; simpl; [reflexivity|].
  simpl in Hl. apply andb_true_iff in Hl as [Hh Hl].
  apply negb_true_iff in Hh. unfold collides in Hh. rewrite Hh.
  apply IH, Hl.
Qed.

(** Whatever the indices, the loop either leaves the memory alone and
    answers valid, or reports once and answers invalid. *)
Lemma for_loop_cases (l : list GlobalIndex) :
  forall (i : nat) (m : Mem),
    VoxbloxMotionValidator.for_loop self voxel_size size i l m = (true, m) \/
    exists pos f,
      VoxbloxMotionValidator.for_loop self voxel_size size i l m =
      (false, report pos f m).
Proof.
  induction l as [| h l IH]; intros i m; simpl; [left; reflexivity|].
  destruct (VoxbloxValidityChecker.checkCollisionWithRobotAtVoxel _ h).
  - right. eexists _, _. reflexivity.
  - apply IH.
Qed.

(** The verdict of the loop: invalid exactly when some index collides. *)
Lemma for_loop_verdict (l : list GlobalIndex) :
  forall (i : nat) (m : Mem),
    fst (VoxbloxMotionValidator.for_loop self voxel_size size i l m) =
    negb (existsb collides l).
Proof.
  induction l as [| h l IH]; intros i m; simpl; [reflexivity|].
  unfold collides at 1.
  destruct (VoxbloxValidityChecker.checkCollisionWithRobotAtVoxel _ h);
    simpl; [reflexivity | apply IH].
Qed.

(** The fraction the loop reports is the quotient of an index by the
    number of indices, which is 0. *)
Lemma for_loop_fraction_zero (l : list GlobalIndex) :
  forall (i : nat) (m m' : Mem),
    (i + length l = size)%nat ->
    VoxbloxMotionValidator.for_loop self voxel_size size i l m = (false, m') ->
    second (last_valid m') = 0%float.
Proof.
  induction l as [| h l IH]; intros i m m' Hsize H; simpl in H; [discriminate|].
  simpl in Hsize.
  destruct (VoxbloxValidityChecker.checkCollisionWithRobotAtVoxel _ h).
  - injection H as <-. rewrite report_second, Nat.div_small by lia. reflexivity.
  - apply (IH (S i) m m'); [lia | exact H].
Qed.

End GridLoop.

(** ** Grid-traversal validator: where and how far *)

Lemma nth_error_prefix_free (collides : GlobalIndex -> bool)
    (pre post : list GlobalIndex) (g : GlobalIndex) :
  (forall j h, (j < length pre)%nat ->
     nth_error (pre ++ g :: post) j = Some h -> collides h = false) ->
  forallb (fun h => negb (collides h)) pre = true.
Proof.
  intro H. apply forallb_forall. intros h Hin.
  apply In_nth_error in Hin as [j Hj].
  assert (Hlt : (j < length pre)%nat).
  { apply nth_error_Some. congruence. }
  apply negb_true_iff. apply (H j h Hlt).
  rewrite nth_error_app1 by exact Hlt. exact Hj.
Qed.

(** C1. In the grid-traversal validator, when the ray traversal enumerates
    N indices and the first colliding one is at enumeration position i,
    checkMotion answers invalid, the fraction it stores is the integer
    quotient i / N converted to a double (hence 0, as i < N), and, when a
    state slot was passed, the state it stores is that index multiplied by
    the voxel size. *)
Theorem grid_failure_fraction_and_position
    (self : VoxbloxMotionValidator.t) (s1 s2 : State) (m : Mem)
    (i : nat) (g : GlobalIndex) :
  let indices := VoxbloxMotionValidator.indices self s1 s2 in
  let N := length indices in
  let checker := VoxbloxMotionValidator.validity_checker_ self in
  let collides := VoxbloxValidityChecker.checkCollisionWithRobotAtVoxel checker in
  let pos := Spec.position_of_index (VoxbloxValidityChecker.voxel_size checker) g in
  nth_error indices i = Some g ->
  collides g = true ->
  (forall j h, (j < i)%nat -> nth_error indices j = Some h -> collides h = false) ->
  exists m',
    VoxbloxMotionValidator.checkMotion self s1 s2 m = (false, m') /\
    second (last_valid m') = cast_double (Z.of_nat (i / N)) /\
    second (last_valid m') = 0%float /\
    first (last_valid m') =
    match first (last_valid m) with
    | Some _ => Some (mkState (x pos) (y pos) (z pos))
    | None => None
    end.
Proof.
  intros indices N checker collides pos Hnth Hg Hfree.
  destruct (nth_error_split indices i Hnth) as (pre & post & Heq & Hlen).
  assert (Hpre : forallb (fun h => negb (collides h)) pre = true).
  { apply (nth_error_prefix_free collides pre post g).
    rewrite Hlen, <- Heq. exact Hfree. }
  assert (HiN : (i < N)%nat).
  { unfold N. rewrite Heq, length_app. simpl. lia. }
  eexists. split; [|split; [|split]].
  - unfold VoxbloxMotionValidator.checkMotion. fold indices. rewrite Heq.
    apply (for_loop_first_collision self _ _ pre post g 0 m Hpre Hg).
  - rewrite report_second, Hlen, <- Heq. reflexivity.
  - rewrite report_second, Hlen, <- Heq.
    change (length indices) with N. rewrite Nat.add_0_l.
    rewrite (Nat.div_small i N HiN). reflexivity.
  - rewrite report_first. reflexivity.
Qed.

Lemma grid_failure_fraction_and_position_witness :
  exists m',
    VoxbloxMotionValidator.checkMotion
      (Scenario.grid_validator (Scenario.cube 100) 0.5)
      Scenario.origin (Scenario.on_x 2) Scenario.slot = (false, m') /\
    second (last_valid m') = cast_double (Z.of_nat (2 / 3)) /\
    second (last_valid m') = 0%float /\
    first (last_valid m') = Some (mkState 2 0 0).
Proof.
  apply (grid_failure_fraction_and_position
           (Scenario.grid_validator (Scenario.cube 100) 0.5)
           Scenario.origin (Scenario.on_x 2) Scenario.slot 2 (mkIndex3 2 0 0)).
  - reflexivity.
  - reflexivity.
  - intros j h Hj Hnth.
    destruct j as [| [| j]]; [| | lia]; vm_compute in Hnth;
      injection Hnth as <-; reflexivity.
Defined.

(** Every fraction the grid-traversal validator reports is 0, which lies in
    the unit interval. *)
Lemma grid_fraction_in_unit_interval (self : VoxbloxMotionValidator.t)
    (s1 s2 : State) (m m' : Mem) :
  VoxbloxMotionValidator.checkMotion self s1 s2 m = (false, m') ->
  second (last_valid m') = 0%float /\
  Spec.in_unit_interval (second (last_valid m')) = true.
Proof.
  unfold VoxbloxMotionValidator.checkMotion. intro H.
  apply for_loop_fraction_zero in H; [|reflexivity].
  rewrite H. split; reflexivity.
Qed.

(** ** The adaptive-stepping loop *)

Lemma report_frame (pos : Vector3d) (f : float) (m : Mem) :
  Spec.output_frame false m (report pos f m).
Proof.
  exists pos, f. split; [apply report_second|].
  pose proof (report_first pos f m) as Hf.
  pose proof (report_writes pos f m) as Hw.
  destruct (first (last_valid m)); split; assumption.
Qed.

(** The loop leaves the memory alone unless it returns, and it only ever
    returns [false], after one report. *)
Lemma while_loop_cases (self : CbloxMotionValidator.t)
    (start dir : Vector3d) (len step step_temp : float) (m : Mem) :
  forall (fuel : nat) (position : Vector3d) (e : CbloxMotionValidator.LoopExit) (m' : Mem),
    CbloxMotionValidator.while_loop fuel self start dir len step step_temp position m
    = Some (e, m') ->
    (exists p, e = CbloxMotionValidator.Break p /\ m' = m) \/
    (exists pos f, e = CbloxMotionValidator.Return false /\ m' = report pos f m).
Proof.
  induction fuel as [| fuel IH]; intros position e m' H; simpl in H; [discriminate|].
  destruct (PrimFloat.ltb (Eigen.norm (Eigen.sub position start)) len).
  - destruct (CbloxValidityChecker.checkCollisionWithRobot _ position).
    + injection H as <- <-. right. eexists _, _. split; reflexivity.
    + destruct (PrimFloat.ltb (CbloxValidityChecker.remainingDistanceToCollision _ position) step).
      * destruct (PrimFloat.ltb _ CbloxMotionValidator.near_zero).
        -- injection H as <- <-. right. eexists _, _. split; reflexivity.
        -- exact (IH _ _ _ H).
      * exact (IH _ _ _ H).
  - injection H as <- <-. left. eexists. split; reflexivity.
Qed.

(** ** Frame of checkMotion *)

(** C10. For both motion validators: a call that answers valid leaves the
    last_valid pair as it was and writes nothing; a call that answers
    invalid writes the fraction, and writes the state only when the state
    slot is not null. *)
Theorem last_valid_written_only_on_failure :
  (forall (self : VoxbloxMotionValidator.t) (s1 s2 : State) (m : Mem),
     Spec.output_frame
       (fst (VoxbloxMotionValidator.checkMotion self s1 s2 m)) m
       (snd (VoxbloxMotionValidator.checkMotion self s1 s2 m))) /\
  (forall (fuel : nat) (self : CbloxMotionValidator.t) (s1 s2 : State)
          (m : Mem) (valid : bool) (m' : Mem),
     CbloxMotionValidator.checkMotion fuel self s1 s2 m = Some (valid, m') ->
     Spec.output_frame valid m m').
Proof.
  split.
  - intros self s1 s2 m. unfold VoxbloxMotionValidator.checkMotion.
    destruct (for_loop_cases self
                (VoxbloxValidityChecker.voxel_size
                   (VoxbloxMotionValidator.validity_checker_ self))
                (length (VoxbloxMotionValidator.indices self s1 s2))
                (VoxbloxMotionValidator.indices self s1 s2) 0 m)
      as [H | (pos & f & H)]; rewrite H; simpl.
    + reflexivity.
    + apply report_frame.
  - intros fuel self s1 s2 m valid m' H.
    unfold CbloxMotionValidator.checkMotion in H.
    destruct (CbloxMotionValidator.while_loop _ _ _ _ _ _ _ _ _)
      as [[e m1] |] eqn:Hloop; [|discriminate].
    apply while_loop_cases in Hloop
      as [(p & -> & ->) | (pos & f & -> & ->)].
    + destruct (CbloxValidityChecker.checkCollisionWithRobot _ _);
        injection H as <- <-.
      * apply report_frame.
      * reflexivity.
    + injection H as <- <-. apply report_frame.
Qed.

Lemma last_valid_written_only_on_failure_witness :
  Spec.output_frame false Scenario.no_slot
    (mkMem (mkLastValid None 2) [WriteFraction 2]) /\
  Spec.output_frame true Scenario.slot Scenario.slot.
Proof.
  split.
  - apply (proj2 last_valid_written_only_on_failure 1
             (Scenario.cblox_validator (Scenario.cube 100) 0.25 Scenario.blocked 1)
             Scenario.origin (Scenario.on_x 0.25) Scenario.no_slot).
    reflexivity.
  - apply (proj2 last_valid_written_only_on_failure 9
             (Scenario.cblox_validator (Scenario.cube 100) 0.5 Scenario.thin_wall 2)
             Scenario.origin (Scenario.on_x 4) Scenario.slot).
    reflexivity.
Defined.

(** ** isValid *)

(** C9. For the voxblox checkers and for the cblox checker: on a state
    outside the bounds isValid answers false without calling
    checkCollisionWithRobot; on a state inside the bounds it calls it once,
    at the position of the state, and answers the negation of its result. *)
Theorem isValid_bounds_then_negated_collision :
  (forall (self : VoxbloxValidityChecker.t) (state : State),
     (satisfiesBounds (VoxbloxValidityChecker.si_ self) state = false ->
      VoxbloxValidityChecker.isValid self state = false /\
      snd (VoxbloxValidityChecker.isValid_calls self state) = []) /\
     (satisfiesBounds (VoxbloxValidityChecker.si_ self) state = true ->
      VoxbloxValidityChecker.isValid self state =
      negb (VoxbloxValidityChecker.checkCollisionWithRobot self (omplToEigen state)) /\
      snd (VoxbloxValidityChecker.isValid_calls self state) =
      [CheckCollisionWithRobot (omplToEigen state)])) /\
  (forall (self : CbloxValidityChecker.t) (state : State),
     (satisfiesBounds (CbloxValidityChecker.si_ self) state = false ->
      CbloxValidityChecker.isValid self state = false /\
      snd (CbloxValidityChecker.isValid_calls self state) = []) /\
     (satisfiesBounds (CbloxValidityChecker.si_ self) state = true ->
      CbloxValidityChecker.isValid self state =
      negb (CbloxValidityChecker.checkCollisionWithRobot self (omplToEigen state)) /\
      snd (CbloxValidityChecker.isValid_calls self state) =
      [CheckCollisionWithRobot (omplToEigen state)])).
Proof.
  split; intros self state; split; intro Hb.
  - unfold VoxbloxValidityChecker.isValid, VoxbloxValidityChecker.isValid_calls.
    rewrite Hb. split; reflexivity.
  - unfold VoxbloxValidityChecker.isValid, VoxbloxValidityChecker.isValid_calls.
    rewrite Hb. split; reflexivity.
  - unfold CbloxValidityChecker.isValid, CbloxValidityChecker.isValid_calls.
    rewrite Hb. split; reflexivity.
  - unfold CbloxValidityChecker.isValid, CbloxValidityChecker.isValid_calls.
    rewrite Hb. split; reflexivity.
Qed.

Lemma isValid_bounds_then_negated_collision_witness :
  (VoxbloxValidityChecker.isValid
     (EsdfVoxbloxValidityChecker.checker (Scenario.esdf_checker (Scenario.cube 1) 0.5))
     (Scenario.on_x 2) = false /\
   snd (VoxbloxValidityChecker.isValid_calls
          (EsdfVoxbloxValidityChecker.checker (Scenario.esdf_checker (Scenario.cube 1) 0.5))
          (Scenario.on_x 2)) = []) /\
  (CbloxValidityChecker.isValid
     (CbloxValidityChecker.mk (Scenario.cube 1) 0.5 Scenario.clear) Scenario.origin =
   negb (CbloxValidityChecker.checkCollisionWithRobot
           (CbloxValidityChecker.mk (Scenario.cube 1) 0.5 Scenario.clear)
           (omplToEigen Scenario.origin)) /\
   snd (CbloxValidityChecker.isValid_calls
          (CbloxValidityChecker.mk (Scenario.cube 1) 0.5 Scenario.clear) Scenario.origin) =
   [CheckCollisionWithRobot (omplToEigen Scenario.origin)]).
Proof.
  split.
  - apply (proj1 (proj1 isValid_bounds_then_negated_collision
                    (EsdfVoxbloxValidityChecker.checker
                       (Scenario.esdf_checker (Scenario.cube 1) 0.5))
                    (Scenario.on_x 2))).
    reflexivity.
  - apply (proj2 (proj2 isValid_bounds_then_negated_collision
                    (CbloxValidityChecker.mk (Scenario.cube 1) 0.5 Scenario.clear)
                    Scenario.origin)).
    reflexivity.
Defined.

(** ** Signed-distance-threshold checker *)

(** C5. EsdfVoxbloxValidityChecker::checkCollisionWithRobot: when the
    distance lookup fails the result is collision; when it yields a
    distance the result is collision exactly when robot_radius >= distance,
    so that a radius equal to the distance collides. *)
Theorem esdf_collision_fail_closed_threshold
    (self : EsdfVoxbloxValidityChecker.t) (robot_position : Vector3d) :
  let lookup :=
    getDistance (EsdfVoxbloxValidityChecker.layer_ self)
                (Eigen.cast_point robot_position) false in
  let robot_radius := EsdfVoxbloxValidityChecker.robot_radius_ self in
  (lookup = None ->
   EsdfVoxbloxValidityChecker.checkCollisionWithRobot self robot_position = true) /\
  (forall d, lookup = Some d ->
     (EsdfVoxbloxValidityChecker.checkCollisionWithRobot self robot_position = true
      <-> Spec.le d robot_radius)) /\
  (forall d, lookup = Some d -> PrimFloat.eqb d robot_radius = true ->
     EsdfVoxbloxValidityChecker.checkCollisionWithRobot self robot_position = true).
Proof.
  intros lookup robot_radius.
  unfold EsdfVoxbloxValidityChecker.checkCollisionWithRobot.
  fold lookup. fold robot_radius.
  split; [|split].
  - intros ->. reflexivity.
  - intros d ->. unfold geb, Spec.le. reflexivity.
  - intros d -> Heq. unfold geb. apply eqb_leb, Heq.
Qed.

Lemma esdf_collision_fail_closed_threshold_witness :
  EsdfVoxbloxValidityChecker.checkCollisionWithRobot
    (Scenario.esdf_checker (Scenario.cube 100) 8) (mkVector3d 0.5 0 0) = true /\
  EsdfVoxbloxValidityChecker.checkCollisionWithRobot
    (Scenario.esdf_checker (Scenario.cube 100) 8) (mkVector3d 3.5 0 0) = true.
Proof.
  split.
  - apply (proj2 (proj2 (esdf_collision_fail_closed_threshold
                           (Scenario.esdf_checker (Scenario.cube 100) 8)
                           (mkVector3d 0.5 0 0))) 8%float);
      reflexivity.
  - apply (proj1 (esdf_collision_fail_closed_threshold
                    (Scenario.esdf_checker (Scenario.cube 100) 8)
                    (mkVector3d 3.5 0 0))).
    reflexivity.
Defined.

(** C8, as the code has it. EsdfVoxbloxValidityChecker:
    checkCollisionWithRobotAtVoxel at a grid index g gives the verdict of
    checkCollisionWithRobot at the position g * voxel_size whenever the
    point lookup at that position, without interpolation, reads the voxel
    stored at g: it fails when there is no such voxel and yields the
    distance of the voxel otherwise. *)
Theorem esdf_voxel_check_agrees_with_position_check
    (self : EsdfVoxbloxValidityChecker.t) (g : GlobalIndex) :
  let layer := EsdfVoxbloxValidityChecker.layer_ self in
  let pos := Spec.position_of_index (esdf_voxel_size layer) g in
  getDistance layer (Eigen.cast_point pos) false =
  option_map distance (getVoxelPtrByGlobalIndex layer g) ->
  EsdfVoxbloxValidityChecker.checkCollisionWithRobotAtVoxel self g =
  EsdfVoxbloxValidityChecker.checkCollisionWithRobot self pos.
Proof.
  intros layer pos H.
  unfold EsdfVoxbloxValidityChecker.checkCollisionWithRobotAtVoxel,
         EsdfVoxbloxValidityChecker.checkCollisionWithRobot.
  fold layer. rewrite H.
  destruct (getVoxelPtrByGlobalIndex layer g); reflexivity.
Qed.

Lemma esdf_voxel_check_agrees_with_position_check_witness :
  EsdfVoxbloxValidityChecker.checkCollisionWithRobotAtVoxel
    (Scenario.esdf_checker (Scenario.cube 100) 0.5) (mkIndex3 2 0 0) =
  EsdfVoxbloxValidityChecker.checkCollisionWithRobot
    (Scenario.esdf_checker (Scenario.cube 100) 0.5) (mkVector3d 2 0 0).
Proof.
  apply (esdf_voxel_check_agrees_with_position_check
           (Scenario.esdf_checker (Scenario.cube 100) 0.5) (mkIndex3 2 0 0)).
  reflexivity.
Defined.

(** C8, as stated, fails. With voxel size 1 the indices (2^24,0,0) and
    (2^24+1,0,0) have the positions 16777216 and 16777217, which
    checkCollisionWithRobot converts to the same FloatingPoint point: the
    position-based check cannot tell them apart, whatever the lookup. Here
    the voxel at 2^24+1 collides and the position-based check at its
    position, reading the cell of 16777216, does not. *)
Lemma esdf_voxel_check_differs_from_position_check :
  let g1 := mkIndex3 Scenario.far 0 0 in
  let g2 := mkIndex3 (Scenario.far + 1) 0 0 in
  Eigen.cast_point (Spec.position_of_index 1 g1) =
  Eigen.cast_point (Spec.position_of_index 1 g2) /\
  EsdfVoxbloxValidityChecker.checkCollisionWithRobotAtVoxel Scenario.far_checker g2 = true /\
  EsdfVoxbloxValidityChecker.checkCollisionWithRobot Scenario.far_checker
    (Spec.position_of_index
       (esdf_voxel_size (EsdfVoxbloxValidityChecker.layer_ Scenario.far_checker)) g2)
  = false.
Proof. vm_compute. repeat split. Qed.

(** ** Occupancy-sphere-scan checker *)

Section OccupancyScan.
Variable self : TsdfVoxbloxValidityChecker.t.

Let layer := TsdfVoxbloxValidityChecker.layer_ self.
Let flag := TsdfVoxbloxValidityChecker.treat_unknown_as_occupied_ self.

(** The inner loop returns [true] exactly when some voxel of the list
    triggers. *)
Lemma voxel_loop_existsb (block : TsdfBlock) (l : list VoxelIndex) :
  TsdfVoxbloxValidityChecker.voxel_loop self block l =
  existsb (Spec.voxel_hit layer flag block) l.
Proof.
  induction l as [| v l IH]; simpl; [reflexivity|].
  unfold Spec.voxel_hit at 1. fold layer. fold flag.
  destruct (negb (isValidVoxelIndex block v)).
  - destruct flag; [reflexivity | exact IH].
  - destruct (PrimFloat.ltb _ _).
    + destruct flag; [reflexivity | exact IH].
    + destruct (PrimFloat.leb _ _); [reflexivity | exact IH].
Qed.

(** The outer loop skips unallocated blocks and scans the others. *)
Lemma block_loop_existsb (l : HierarchicalIndexMap) :
  TsdfVoxbloxValidityChecker.block_loop self l =
  existsb (fun kv =>
             match getBlockPtrByIndex layer (fst kv) with
             | None => false
             | Some block => existsb (Spec.voxel_hit layer flag block) (snd kv)
             end) l.
Proof.
  induction l as [| kv l IH]; simpl; [reflexivity|].
  fold layer. destruct (getBlockPtrByIndex layer (fst kv)) as [block |].
  - rewrite voxel_loop_existsb.
    destruct (existsb _ (snd kv)); [reflexivity | exact IH].
  - exact IH.
Qed.

(** A collision is a triggering voxel of an allocated block of the list. *)
Lemma block_loop_true (l : HierarchicalIndexMap) :
  TsdfVoxbloxValidityChecker.block_loop self l = true <->
  exists b vs block v,
    In (b, vs) l /\ getBlockPtrByIndex layer b = Some block /\
    In v vs /\ Spec.voxel_hit layer flag block v = true.
Proof.
  rewrite block_loop_existsb, existsb_exists. split.
  - intros ([b vs] & Hin & H). simpl in H.
    destruct (getBlockPtrByIndex layer b) as [block |] eqn:Hb; [|discriminate].
    apply existsb_exists in H as (v & Hv & Hhit).
    exists b, vs, block, v. auto.
  - intros (b & vs & block & v & Hin & Hb & Hv & Hhit).
    exists (b, vs). split; [exact Hin|]. simpl. rewrite Hb.
    apply existsb_exists. exists v. auto.
Qed.

End OccupancyScan.

(** On an unobserved voxel of an allocated block the scan answers the
    policy flag. *)
Lemma voxel_hit_unobserved (layer : TsdfLayer) (flag : bool) (b : BlockIndex)
    (block : TsdfBlock) (v : VoxelIndex) :
  getBlockPtrByIndex layer b = Some block ->
  Spec.unobserved layer b v = true ->
  Spec.voxel_hit layer flag block v = flag.
Proof.
  unfold Spec.unobserved, Spec.voxel_hit. intros -> H.
  destruct (negb (isValidVoxelIndex block v)); [reflexivity|].
  simpl in H. rewrite H. reflexivity.
Qed.

Lemma scan_of_unobserved_sphere (self : TsdfVoxbloxValidityChecker.t)
    (l : HierarchicalIndexMap) :
  Spec.wholly_unobserved (TsdfVoxbloxValidityChecker.layer_ self) l = true ->
  TsdfVoxbloxValidityChecker.block_loop self l =
  TsdfVoxbloxValidityChecker.treat_unknown_as_occupied_ self
  && Spec.reaches_allocated_block (TsdfVoxbloxValidityChecker.layer_ self) l.
Proof.
  intro H. rewrite block_loop_existsb.
  set (layer := TsdfVoxbloxValidityChecker.layer_ self) in *.
  set (flag := TsdfVoxbloxValidityChecker.treat_unknown_as_occupied_ self).
  induction l as [| [b vs] l IH]; simpl.
  - rewrite andb_false_r. reflexivity.
  - simpl in H. apply andb_true_iff in H as [Hvs Hl].
    rewrite (IH Hl). clear IH.
    destruct (getBlockPtrByIndex layer b) as [block |] eqn:Hb.
    + assert (Hscan : existsb (Spec.voxel_hit layer flag block) vs =
                      flag && match vs with [] => false | _ :: _ => true end).
      { destruct vs as [| v vs]; simpl; [rewrite andb_false_r; reflexivity|].
        simpl in Hvs. apply andb_true_iff in Hvs as [Hv Hvs].
        rewrite (voxel_hit_unobserved layer flag b block v Hb Hv).
        destruct flag; simpl; [reflexivity|].
        clear Hv. induction vs as [| w vs IHvs]; simpl; [reflexivity|].
        simpl in Hvs. apply andb_true_iff in Hvs as [Hw Hvs].
        rewrite (voxel_hit_unobserved layer false b block w Hb Hw).
        exact (IHvs Hvs). }
      rewrite Hscan. destruct flag, vs; reflexivity.
    + reflexivity.
Qed.

(** C4, as the code has it. TsdfVoxbloxValidityChecker, for a state inside
    the bounds whose enumerated sphere is wholly unobserved: isValid
    answers true when treat_unknown_as_occupied is false; when the flag is
    true it answers false exactly when some enumerated voxel lies in an
    allocated block, and true when none does. *)
Theorem unknown_space_policy
    (self : TsdfVoxbloxValidityChecker.t) (state : State) :
  let layer := TsdfVoxbloxValidityChecker.layer_ self in
  let optimistic :=
    TsdfVoxbloxValidityChecker.setTreatUnknownAsOccupied false self in
  let conservative :=
    TsdfVoxbloxValidityChecker.setTreatUnknownAsOccupied true self in
  satisfiesBounds (TsdfVoxbloxValidityChecker.si_ self) state = true ->
  Spec.wholly_unobserved layer (Spec.sphere self (omplToEigen state)) = true ->
  VoxbloxValidityChecker.isValid
    (TsdfVoxbloxValidityChecker.checker optimistic) state = true /\
  VoxbloxValidityChecker.isValid
    (TsdfVoxbloxValidityChecker.checker conservative) state =
  negb (Spec.reaches_allocated_block layer (Spec.sphere self (omplToEigen state))).
Proof.
  intros layer optimistic conservative Hb Hu.
  unfold VoxbloxValidityChecker.isValid, VoxbloxValidityChecker.isValid_calls.
  simpl. rewrite Hb. simpl.
  unfold TsdfVoxbloxValidityChecker.checkCollisionWithRobot. simpl.
  change (getSphereAroundPoint _ _ _) with (Spec.sphere self (omplToEigen state)).
  split.
  - rewrite (scan_of_unobserved_sphere optimistic _ Hu). reflexivity.
  - rewrite (scan_of_unobserved_sphere conservative _ Hu). reflexivity.
Qed.

Lemma unknown_space_policy_witness :
  VoxbloxValidityChecker.isValid
    (TsdfVoxbloxValidityChecker.checker
       (TsdfVoxbloxValidityChecker.setTreatUnknownAsOccupied false
          (Scenario.tsdf_checker Scenario.unseen_layer 1))) Scenario.origin = true /\
  VoxbloxValidityChecker.isValid
    (TsdfVoxbloxValidityChecker.checker
       (TsdfVoxbloxValidityChecker.setTreatUnknownAsOccupied true
          (Scenario.tsdf_checker Scenario.unseen_layer 1))) Scenario.origin = false.
Proof.
  apply (unknown_space_policy
           (Scenario.tsdf_checker Scenario.unseen_layer 1) Scenario.origin);
    reflexivity.
Defined.

(** C4, as stated, fails. No block of the layer is allocated, so the
    sphere around the origin is wholly unobserved; with
    treat_unknown_as_occupied set, isValid still answers true. *)
Lemma unknown_space_policy_unallocated :
  let self := Scenario.tsdf_checker Scenario.unallocated_layer 1 in
  satisfiesBounds (TsdfVoxbloxValidityChecker.si_ self) Scenario.origin = true /\
  Spec.wholly_unobserved Scenario.unallocated_layer
    (Spec.sphere self (omplToEigen Scenario.origin)) = true /\
  VoxbloxValidityChecker.isValid
    (TsdfVoxbloxValidityChecker.checker
       (TsdfVoxbloxValidityChecker.setTreatUnknownAsOccupied true self))
    Scenario.origin = true.
Proof. vm_compute. repeat split. Qed.

(** ** Zero-length segments *)

(** On a segment from a state to itself the loop of the adaptive-stepping
    validator is not entered. *)
Lemma while_loop_zero_length (fuel : nat) (self : CbloxMotionValidator.t)
    (start dir : Vector3d) (step step_temp : float) (m : Mem) :
  CbloxMotionValidator.while_loop (S fuel) self start dir
    (Eigen.norm (Eigen.sub start start)) step step_temp start m =
  Some (CbloxMotionValidator.Break start, m).
Proof. simpl. rewrite ltb_irrefl. reflexivity. Qed.

(** A check that gives one verdict at every element of a list that is not
    empty gives that verdict on the list. *)
Lemma existsb_constant (A : Type) (f : A -> bool) (b : bool) (l : list A) :
  (0 < length l)%nat -> (forall a, In a l -> f a = b) -> existsb f l = b.
Proof.
  destruct l as [| a l]; simpl; [lia|]. intros _ H.
  rewrite (H a (or_introl eq_refl)).
  destruct b; [reflexivity|]. simpl.
  induction l as [| c l IH]; simpl; [reflexivity|].
  rewrite (H c (or_intror (or_introl eq_refl))). simpl.
  apply IH. intros d [Hd | Hd]; apply H; [left | right; right]; exact Hd.
Qed.

(** Spheres that hold the same voxels get the same verdict. *)
Lemma block_loop_same_voxels (self : TsdfVoxbloxValidityChecker.t)
    (l1 l2 : HierarchicalIndexMap) :
  Spec.sphere_included l1 l2 -> Spec.sphere_included l2 l1 ->
  TsdfVoxbloxValidityChecker.block_loop self l1 =
  TsdfVoxbloxValidityChecker.block_loop self l2.
Proof.
  assert (Hmono : forall la lb, Spec.sphere_included la lb ->
            TsdfVoxbloxValidityChecker.block_loop self la = true ->
            TsdfVoxbloxValidityChecker.block_loop self lb = true).
  { intros la lb Hinc H.
    apply block_loop_true in H as (b & vs & block & v & Hin & Hb & Hv & Hhit).
    destruct (Hinc b v vs Hin Hv) as (vs' & Hin' & Hv').
    apply block_loop_true. exists b, vs', block, v. auto. }
  intros H12 H21.
  destruct (TsdfVoxbloxValidityChecker.block_loop self l1) eqn:E1.
  - symmetry. exact (Hmono l1 l2 H12 E1).
  - destruct (TsdfVoxbloxValidityChecker.block_loop self l2) eqn:E2; [|reflexivity].
    rewrite (Hmono l2 l1 H21 E2) in E1. discriminate.
Qed.

(** C6, as the code has it. For a state A inside the bounds: the
    adaptive-stepping validator's checkMotion(A, A) returns isValid(A).
    The grid-traversal validator's checkMotion(A, A) returns isValid(A)
    when the ray traversal of the degenerate segment yields at least one
    index and, at every index g it yields: over the signed-distance
    checker, the point lookup at A, without interpolation, reads the voxel
    stored at g; over the occupancy-scan checker, the sphere enumerated
    around g * voxel_size holds the same voxels as the sphere enumerated
    around A. *)
Theorem zero_length_motion_is_state_validity :
  (forall (fuel : nat) (self : CbloxMotionValidator.t) (A : State) (m : Mem),
     satisfiesBounds
       (CbloxValidityChecker.si_ (CbloxMotionValidator.validity_checker_ self)) A = true ->
     option_map fst (CbloxMotionValidator.checkMotion (S fuel) self A A m) =
     Some (CbloxValidityChecker.isValid (CbloxMotionValidator.validity_checker_ self) A)) /\
  (forall (checker : EsdfVoxbloxValidityChecker.t)
          (castRay : Point -> Point -> list GlobalIndex) (A : State) (m : Mem),
     let self :=
       VoxbloxMotionValidator.mk (EsdfVoxbloxValidityChecker.checker checker) castRay in
     let layer := EsdfVoxbloxValidityChecker.layer_ checker in
     satisfiesBounds (EsdfVoxbloxValidityChecker.si_ checker) A = true ->
     (0 < length (VoxbloxMotionValidator.indices self A A))%nat ->
     (forall g, In g (VoxbloxMotionValidator.indices self A A) ->
        getDistance layer (Eigen.cast_point (omplToEigen A)) false =
        option_map distance (getVoxelPtrByGlobalIndex layer g)) ->
     fst (VoxbloxMotionValidator.checkMotion self A A m) =
     VoxbloxValidityChecker.isValid (EsdfVoxbloxValidityChecker.checker checker) A) /\
  (forall (checker : TsdfVoxbloxValidityChecker.t)
          (castRay : Point -> Point -> list GlobalIndex) (A : State) (m : Mem),
     let self :=
       VoxbloxMotionValidator.mk (TsdfVoxbloxValidityChecker.checker checker) castRay in
     let voxel_size := tsdf_voxel_size (TsdfVoxbloxValidityChecker.layer_ checker) in
     satisfiesBounds (TsdfVoxbloxValidityChecker.si_ checker) A = true ->
     (0 < length (VoxbloxMotionValidator.indices self A A))%nat ->
     (forall g, In g (VoxbloxMotionValidator.indices self A A) ->
        Spec.sphere_included
          (Spec.sphere checker (Spec.position_of_index voxel_size g))
          (Spec.sphere checker (omplToEigen A)) /\
        Spec.sphere_included
          (Spec.sphere checker (omplToEigen A))
          (Spec.sphere checker (Spec.position_of_index voxel_size g))) ->
     fst (VoxbloxMotionValidator.checkMotion self A A m) =
     VoxbloxValidityChecker.isValid (TsdfVoxbloxValidityChecker.checker checker) A).
Proof.
  split; [|split].
  - intros fuel self A m Hb.
    unfold CbloxMotionValidator.checkMotion.
    rewrite while_loop_zero_length.
    unfold CbloxValidityChecker.isValid, CbloxValidityChecker.isValid_calls.
    rewrite Hb. simpl.
    destruct (CbloxValidityChecker.checkCollisionWithRobot _ _); reflexivity.
  - intros checker castRay A m self layer Hb Hne Hread.
    unfold VoxbloxMotionValidator.checkMotion. rewrite for_loop_verdict.
    rewrite (existsb_constant GlobalIndex _
               (EsdfVoxbloxValidityChecker.checkCollisionWithRobot checker (omplToEigen A))
               _ Hne).
    + unfold VoxbloxValidityChecker.isValid, VoxbloxValidityChecker.isValid_calls.
      simpl. rewrite Hb. reflexivity.
    + intros g Hin. simpl.
      unfold EsdfVoxbloxValidityChecker.checkCollisionWithRobotAtVoxel,
             EsdfVoxbloxValidityChecker.checkCollisionWithRobot.
      fold layer. rewrite (Hread g Hin).
      destruct (getVoxelPtrByGlobalIndex layer g); reflexivity.
  - intros checker castRay A m self voxel_size Hb Hne Hsame.
    unfold VoxbloxMotionValidator.checkMotion. rewrite for_loop_verdict.
    rewrite (existsb_constant GlobalIndex _
               (TsdfVoxbloxValidityChecker.checkCollisionWithRobot checker (omplToEigen A))
               _ Hne).
    + unfold VoxbloxValidityChecker.isValid, VoxbloxValidityChecker.isValid_calls.
      simpl. rewrite Hb. reflexivity.
    + intros g Hin. destruct (Hsame g Hin) as [H1 H2]. simpl.
      unfold VoxbloxValidityChecker.default_checkCollisionWithRobotAtVoxel.
      exact (block_loop_same_voxels checker _ _ H1 H2).
Qed.

Lemma zero_length_motion_is_state_validity_witness :
  option_map fst
    (CbloxMotionValidator.checkMotion 1
       (Scenario.cblox_validator (Scenario.cube 100) 0.5 Scenario.thin_wall 2)
       (Scenario.on_x 1) (Scenario.on_x 1) Scenario.slot) =
  Some (CbloxValidityChecker.isValid
          (CbloxValidityChecker.mk (Scenario.cube 100) 0.5 Scenario.thin_wall)
          (Scenario.on_x 1)) /\
  fst (VoxbloxMotionValidator.checkMotion
         (Scenario.grid_validator (Scenario.cube 100) 0.5)
         (Scenario.on_x 2) (Scenario.on_x 2) Scenario.slot) =
  VoxbloxValidityChecker.isValid
    (EsdfVoxbloxValidityChecker.checker (Scenario.esdf_checker (Scenario.cube 100) 0.5))
    (Scenario.on_x 2) /\
  fst (VoxbloxMotionValidator.checkMotion
         (VoxbloxMotionValidator.mk
            (TsdfVoxbloxValidityChecker.checker
               (Scenario.tsdf_checker Scenario.wall_layer 1)) Scenario.x_ray)
         Scenario.origin Scenario.origin Scenario.slot) =
  VoxbloxValidityChecker.isValid
    (TsdfVoxbloxValidityChecker.checker (Scenario.tsdf_checker Scenario.wall_layer 1))
    Scenario.origin.
Proof.
  split; [|split].
  - apply (proj1 zero_length_motion_is_state_validity 0
             (Scenario.cblox_validator (Scenario.cube 100) 0.5 Scenario.thin_wall 2)
             (Scenario.on_x 1) Scenario.slot).
    reflexivity.
  - apply (proj1 (proj2 zero_length_motion_is_state_validity)
             (Scenario.esdf_checker (Scenario.cube 100) 0.5) Scenario.x_ray
             (Scenario.on_x 2) Scenario.slot).
    + reflexivity.
    + vm_compute. lia.
    + intros g Hin. vm_compute in Hin. destruct Hin as [<- | []]. reflexivity.
  - apply (proj2 (proj2 zero_length_motion_is_state_validity)
             (Scenario.tsdf_checker Scenario.wall_layer 1) Scenario.x_ray
             Scenario.origin Scenario.slot).
    + reflexivity.
    + vm_compute. lia.
    + intros g Hin. split; intros b v vs Hb Hv; exists vs; split; assumption.
Defined.

(** C6, as stated, fails, in four ways.  (1) The state (1.5, 0, 0) is free
    and lies outside bounds of half-width 0.5: both validators accept the
    zero-length motion and both checkers reject the state.  (2) With voxel
    size 0.1 the state at 0.7 lies in the cell of the free voxel (6,0,0),
    and checkMotion divides it by the voxel size in FloatingPoint to 7, so
    that the ray starts at the voxel (7,0,0), which is at distance 0: the
    state is valid and the zero-length motion is not.  (3) With radius 0.75
    and voxel size 1 the sphere around (0.875, 0, 0) holds the obstacle
    voxel at x = 1, and the sphere around the position of the index
    (0,0,0), which the grid validator checks, does not: the state is
    invalid and the zero-length motion valid.  (4) Over a ray caster that
    yields no index the zero-length motion is valid at a state in
    collision. *)
Lemma zero_length_motion_differs_from_state_validity :
  let outside := Scenario.on_x 1.5 in
  let tight := Scenario.cube 0.5 in
  let wide := Scenario.cube 100 in
  let tenth_checker := EsdfVoxbloxValidityChecker.mk wide 0.0625 Edge.tenth_layer in
  let reach_checker := TsdfVoxbloxValidityChecker.make wide 0.75 Edge.reach_layer in
  let near := mkState 0.875 0 0 in
  (option_map fst
     (CbloxMotionValidator.checkMotion 1
        (Scenario.cblox_validator tight 0.5 Scenario.clear 1) outside outside Scenario.slot)
   = Some true /\
   CbloxValidityChecker.isValid
     (CbloxValidityChecker.mk tight 0.5 Scenario.clear) outside = false /\
   fst (VoxbloxMotionValidator.checkMotion
          (Scenario.grid_validator tight 0.5) outside outside Scenario.slot) = true /\
   VoxbloxValidityChecker.isValid
     (EsdfVoxbloxValidityChecker.checker (Scenario.esdf_checker tight 0.5)) outside = false) /\
  (satisfiesBounds wide Edge.seven_tenths = true /\
   VoxbloxMotionValidator.indices
     (VoxbloxMotionValidator.mk
        (EsdfVoxbloxValidityChecker.checker tenth_checker) Edge.floor_ray)
     Edge.seven_tenths Edge.seven_tenths = [mkIndex3 7 0 0] /\
   fst (VoxbloxMotionValidator.checkMotion
          (VoxbloxMotionValidator.mk
             (EsdfVoxbloxValidityChecker.checker tenth_checker) Edge.floor_ray)
          Edge.seven_tenths Edge.seven_tenths Scenario.slot) = false /\
   VoxbloxValidityChecker.isValid
     (EsdfVoxbloxValidityChecker.checker tenth_checker) Edge.seven_tenths = true) /\
  (satisfiesBounds wide near = true /\
   VoxbloxMotionValidator.indices
     (VoxbloxMotionValidator.mk
        (TsdfVoxbloxValidityChecker.checker reach_checker) Edge.floor_ray)
     near near = [mkIndex3 0 0 0] /\
   fst (VoxbloxMotionValidator.checkMotion
          (VoxbloxMotionValidator.mk
             (TsdfVoxbloxValidityChecker.checker reach_checker) Edge.floor_ray)
          near near Scenario.slot) = true /\
   VoxbloxValidityChecker.isValid
     (TsdfVoxbloxValidityChecker.checker reach_checker) near = false) /\
  (satisfiesBounds wide (Scenario.on_x 2) = true /\
   fst (VoxbloxMotionValidator.checkMotion
          (VoxbloxMotionValidator.mk
             (EsdfVoxbloxValidityChecker.checker (Scenario.esdf_checker wide 0.5))
             Edge.empty_ray)
          (Scenario.on_x 2) (Scenario.on_x 2) Scenario.slot) = true /\
   VoxbloxValidityChecker.isValid
     (EsdfVoxbloxValidityChecker.checker (Scenario.esdf_checker wide 0.5))
     (Scenario.on_x 2) = false).
Proof. vm_compute. repeat split. Qed.

(** ** Radius monotonicity *)

(** Allowing more iterations does not change what the loop returned. *)
Lemma while_loop_more_fuel (self : CbloxMotionValidator.t)
    (start dir : Vector3d) (len step step_temp : float) (m : Mem) :
  forall (fuel extra : nat) (position : Vector3d)
         (r : CbloxMotionValidator.LoopExit * Mem),
    CbloxMotionValidator.while_loop fuel self start dir len step step_temp position m
    = Some r ->
    CbloxMotionValidator.while_loop (fuel + extra) self start dir len step step_temp
      position m = Some r.
Proof.
  induction fuel as [| fuel IH]; intros extra position r H; simpl in *; [discriminate|].
  destruct (PrimFloat.ltb (Eigen.norm (Eigen.sub position start)) len); [|exact H].
  destruct (CbloxValidityChecker.checkCollisionWithRobot _ position); [exact H|].
  destruct (PrimFloat.ltb (CbloxValidityChecker.remainingDistanceToCollision _ position) step).
  - destruct (PrimFloat.ltb _ CbloxMotionValidator.near_zero); [exact H|].
    apply IH, H.
  - apply IH, H.
Qed.

Lemma checkMotion_more_fuel (fuel extra : nat) (self : CbloxMotionValidator.t)
    (s1 s2 : State) (m : Mem) (r : bool * Mem) :
  CbloxMotionValidator.checkMotion fuel self s1 s2 m = Some r ->
  CbloxMotionValidator.checkMotion (fuel + extra) self s1 s2 m = Some r.
Proof.
  unfold CbloxMotionValidator.checkMotion. intro H.
  destruct (CbloxMotionValidator.while_loop fuel _ _ _ _ _ _ _ _) as [e |] eqn:Hloop;
    [|discriminate].
  rewrite (while_loop_more_fuel _ _ _ _ _ _ _ _ extra _ _ Hloop). exact H.
Qed.

(** A grid motion rejected by one checker is rejected by any checker that
    collides wherever the first one does, over the same indices. *)
Lemma grid_motion_mono (self1 self2 : VoxbloxMotionValidator.t)
    (s1 s2 : State) (m : Mem) :
  VoxbloxMotionValidator.indices self1 s1 s2 = VoxbloxMotionValidator.indices self2 s1 s2 ->
  (forall g,
     VoxbloxValidityChecker.checkCollisionWithRobotAtVoxel
       (VoxbloxMotionValidator.validity_checker_ self1) g = true ->
     VoxbloxValidityChecker.checkCollisionWithRobotAtVoxel
       (VoxbloxMotionValidator.validity_checker_ self2) g = true) ->
  fst (VoxbloxMotionValidator.checkMotion self1 s1 s2 m) = false ->
  fst (VoxbloxMotionValidator.checkMotion self2 s1 s2 m) = false.
Proof.
  intros Hidx Himp. unfold VoxbloxMotionValidator.checkMotion.
  rewrite !for_loop_verdict, <- Hidx. intro H.
  apply negb_false_iff in H. apply negb_false_iff.
  apply existsb_exists in H as (g & Hin & Hg).
  apply existsb_exists. exists g. split; [exact Hin | exact (Himp g Hg)].
Qed.

Lemma isValid_mono (vc1 vc2 : VoxbloxValidityChecker.t) (state : State) :
  VoxbloxValidityChecker.si_ vc1 = VoxbloxValidityChecker.si_ vc2 ->
  (VoxbloxValidityChecker.checkCollisionWithRobot vc1 (omplToEigen state) = true ->
   VoxbloxValidityChecker.checkCollisionWithRobot vc2 (omplToEigen state) = true) ->
  VoxbloxValidityChecker.isValid vc1 state = false ->
  VoxbloxValidityChecker.isValid vc2 state = false.
Proof.
  unfold VoxbloxValidityChecker.isValid, VoxbloxValidityChecker.isValid_calls.
  intros <- Himp.
  destruct (negb (satisfiesBounds (VoxbloxValidityChecker.si_ vc1) state));
    simpl; [reflexivity|].
  intro H. apply negb_false_iff in H. apply negb_false_iff. exact (Himp H).
Qed.

Lemma esdf_position_mono (si : SpaceInformation) (layer : EsdfLayer)
    (r1 r2 : float) (p : Vector3d) :
  Spec.le r1 r2 ->
  EsdfVoxbloxValidityChecker.checkCollisionWithRobot
    (EsdfVoxbloxValidityChecker.mk si r1 layer) p = true ->
  EsdfVoxbloxValidityChecker.checkCollisionWithRobot
    (EsdfVoxbloxValidityChecker.mk si r2 layer) p = true.
Proof.
  unfold EsdfVoxbloxValidityChecker.checkCollisionWithRobot. simpl. intro Hr.
  destruct (getDistance layer (Eigen.cast_point p) false) as [d |];
    [apply geb_mono, Hr | reflexivity].
Qed.

Lemma esdf_voxel_mono (si : SpaceInformation) (layer : EsdfLayer)
    (r1 r2 : float) (g : GlobalIndex) :
  Spec.le r1 r2 ->
  EsdfVoxbloxValidityChecker.checkCollisionWithRobotAtVoxel
    (EsdfVoxbloxValidityChecker.mk si r1 layer) g = true ->
  EsdfVoxbloxValidityChecker.checkCollisionWithRobotAtVoxel
    (EsdfVoxbloxValidityChecker.mk si r2 layer) g = true.
Proof.
  unfold EsdfVoxbloxValidityChecker.checkCollisionWithRobotAtVoxel. simpl. intro Hr.
  destruct (getVoxelPtrByGlobalIndex layer g) as [voxel |];
    [apply geb_mono, Hr | reflexivity].
Qed.

Lemma tsdf_position_mono (si : SpaceInformation) (layer : TsdfLayer) (flag : bool)
    (r1 r2 : float) (p : Vector3d) :
  Spec.sphere_included
    (Spec.sphere (TsdfVoxbloxValidityChecker.mk si r1 layer flag) p)
    (Spec.sphere (TsdfVoxbloxValidityChecker.mk si r2 layer flag) p) ->
  TsdfVoxbloxValidityChecker.checkCollisionWithRobot
    (TsdfVoxbloxValidityChecker.mk si r1 layer flag) p = true ->
  TsdfVoxbloxValidityChecker.checkCollisionWithRobot
    (TsdfVoxbloxValidityChecker.mk si r2 layer flag) p = true.
Proof.
  unfold TsdfVoxbloxValidityChecker.checkCollisionWithRobot.
  change (getSphereAroundPoint _ _ (cast_float (TsdfVoxbloxValidityChecker.robot_radius_
            (TsdfVoxbloxValidityChecker.mk si r1 layer flag))))
    with (Spec.sphere (TsdfVoxbloxValidityChecker.mk si r1 layer flag) p).
  change (getSphereAroundPoint _ _ (cast_float (TsdfVoxbloxValidityChecker.robot_radius_
            (TsdfVoxbloxValidityChecker.mk si r2 layer flag))))
    with (Spec.sphere (TsdfVoxbloxValidityChecker.mk si r2 layer flag) p).
  intros Hinc H.
  apply block_loop_true in H as (b & vs & block & v & Hin & Hb & Hv & Hhit).
  destruct (Hinc b v vs Hin Hv) as (vs' & Hin' & Hv').
  apply block_loop_true. exists b, vs', block, v. auto.
Qed.

(** C7, as the code has it. For radii r1 <= r2 over the same map: a state
    rejected by the signed-distance checker, or by the opaque-distance
    checker, built with r1 is rejected by the one built with r2, and so is
    a motion rejected by the grid-traversal validator over the
    signed-distance checker; for the occupancy-scan checker the same holds
    for states, and for grid-traversal motions, provided the sphere
    enumerated with r2 contains every voxel of the sphere enumerated with
    r1. *)
Theorem radius_monotonicity (r1 r2 : float) :
  Spec.le r1 r2 ->
  (forall (si : SpaceInformation) (layer : EsdfLayer) (state : State),
     VoxbloxValidityChecker.isValid
       (EsdfVoxbloxValidityChecker.checker (EsdfVoxbloxValidityChecker.mk si r1 layer))
       state = false ->
     VoxbloxValidityChecker.isValid
       (EsdfVoxbloxValidityChecker.checker (EsdfVoxbloxValidityChecker.mk si r2 layer))
       state = false) /\
  (forall (si : SpaceInformation) (layer : EsdfLayer)
          (castRay : Point -> Point -> list GlobalIndex) (s1 s2 : State) (m : Mem),
     fst (VoxbloxMotionValidator.checkMotion
            (VoxbloxMotionValidator.mk
               (EsdfVoxbloxValidityChecker.checker
                  (EsdfVoxbloxValidityChecker.mk si r1 layer)) castRay) s1 s2 m) = false ->
     fst (VoxbloxMotionValidator.checkMotion
            (VoxbloxMotionValidator.mk
               (EsdfVoxbloxValidityChecker.checker
                  (EsdfVoxbloxValidityChecker.mk si r2 layer)) castRay) s1 s2 m) = false) /\
  (forall (si : SpaceInformation) (f : Vector3d -> float) (state : State),
     CbloxValidityChecker.isValid (CbloxValidityChecker.mk si r1 f) state = false ->
     CbloxValidityChecker.isValid (CbloxValidityChecker.mk si r2 f) state = false) /\
  (forall (si : SpaceInformation) (layer : TsdfLayer) (flag : bool) (state : State),
     Spec.sphere_included
       (Spec.sphere (TsdfVoxbloxValidityChecker.mk si r1 layer flag) (omplToEigen state))
       (Spec.sphere (TsdfVoxbloxValidityChecker.mk si r2 layer flag) (omplToEigen state)) ->
     VoxbloxValidityChecker.isValid
       (TsdfVoxbloxValidityChecker.checker
          (TsdfVoxbloxValidityChecker.mk si r1 layer flag)) state = false ->
     VoxbloxValidityChecker.isValid
       (TsdfVoxbloxValidityChecker.checker
          (TsdfVoxbloxValidityChecker.mk si r2 layer flag)) state = false) /\
  (forall (si : SpaceInformation) (layer : TsdfLayer) (flag : bool)
          (castRay : Point -> Point -> list GlobalIndex) (s1 s2 : State) (m : Mem),
     (forall p,
        Spec.sphere_included
          (Spec.sphere (TsdfVoxbloxValidityChecker.mk si r1 layer flag) p)
          (Spec.sphere (TsdfVoxbloxValidityChecker.mk si r2 layer flag) p)) ->
     fst (VoxbloxMotionValidator.checkMotion
            (VoxbloxMotionValidator.mk
               (TsdfVoxbloxValidityChecker.checker
                  (TsdfVoxbloxValidityChecker.mk si r1 layer flag)) castRay) s1 s2 m) = false ->
     fst (VoxbloxMotionValidator.checkMotion
            (VoxbloxMotionValidator.mk
               (TsdfVoxbloxValidityChecker.checker
                  (TsdfVoxbloxValidityChecker.mk si r2 layer flag)) castRay) s1 s2 m) = false).
Proof.
  intro Hr. repeat split.
  - intros si layer state. apply isValid_mono; [reflexivity|].
    apply esdf_position_mono, Hr.
  - intros si layer castRay s1 s2 m. apply grid_motion_mono; [reflexivity|].
    intro g. apply esdf_voxel_mono, Hr.
  - intros si f state.
    unfold CbloxValidityChecker.isValid, CbloxValidityChecker.isValid_calls. simpl.
    destruct (negb (satisfiesBounds si state)); simpl; [reflexivity|].
    intro H. apply negb_false_iff in H. apply negb_false_iff.
    exact (geb_mono r1 r2 _ Hr H).
  - intros si layer flag state Hinc. apply isValid_mono; [reflexivity|].
    apply tsdf_position_mono, Hinc.
  - intros si layer flag castRay s1 s2 m Hinc.
    apply grid_motion_mono; [reflexivity|].
    intro g. apply tsdf_position_mono, Hinc.
Qed.

Lemma radius_monotonicity_witness :
  VoxbloxValidityChecker.isValid
    (EsdfVoxbloxValidityChecker.checker (Scenario.esdf_checker (Scenario.cube 100) 1))
    (Scenario.on_x 2) = false /\
  CbloxValidityChecker.isValid
    (CbloxValidityChecker.mk (Scenario.cube 100) 1 Scenario.thin_wall)
    (Scenario.on_x 1) = false /\
  VoxbloxValidityChecker.isValid
    (TsdfVoxbloxValidityChecker.checker
       (TsdfVoxbloxValidityChecker.mk (Scenario.cube 100) 2 Scenario.wall_layer false))
    Scenario.origin = false.
Proof.
  assert (H : Spec.le 0.5 1) by reflexivity.
  assert (H' : Spec.le 1 2) by reflexivity.
  split; [|split].
  - apply (proj1 (radius_monotonicity 0.5 1 H) (Scenario.cube 100)
             Scenario.esdf_layer (Scenario.on_x 2)).
    reflexivity.
  - apply (proj1 (proj2 (proj2 (radius_monotonicity 0.5 1 H))) (Scenario.cube 100)
             Scenario.thin_wall (Scenario.on_x 1)).
    reflexivity.
  - apply (proj1 (proj2 (proj2 (proj2 (radius_monotonicity 1 2 H'))))
             (Scenario.cube 100) Scenario.wall_layer false Scenario.origin).
    + intros b v vs Hin Hv. exists vs. split; assumption.
    + reflexivity.
Defined.

(** C7, as stated, fails. With the adaptive-stepping validator the samples
    depend on the radius: over [thin_wall], from the origin to (4, 0, 0)
    with step 1, radius 0 samples x = 1 and rejects the motion, radius 0.5
    takes a clearance-limited first step to x = 0.5, never samples x = 1 and
    accepts it.  With the occupancy scan over [post_layer], the sphere of
    radius 1 around the origin holds the voxel at x = 1 and the sphere of
    radius 1.25 does not. *)
Lemma radius_monotonicity_fails :
  let s2 := Scenario.on_x 4 in
  Spec.le 0 0.5 /\
  CbloxMotionValidator.checkMotion2 9
    (Scenario.cblox_validator (Scenario.cube 100) 0 Scenario.thin_wall 2)
    Scenario.origin s2 = Some false /\
  CbloxMotionValidator.checkMotion2 9
    (Scenario.cblox_validator (Scenario.cube 100) 0.5 Scenario.thin_wall 2)
    Scenario.origin s2 = Some true /\
  Spec.le 1 1.25 /\
  VoxbloxValidityChecker.isValid
    (TsdfVoxbloxValidityChecker.checker (Scenario.tsdf_checker Scenario.post_layer 1))
    Scenario.origin = false /\
  VoxbloxValidityChecker.isValid
    (TsdfVoxbloxValidityChecker.checker (Scenario.tsdf_checker Scenario.post_layer 1.25))
    Scenario.origin = true.
Proof. vm_compute. repeat split. Qed.

(** ** Defects of the adaptive-stepping validator *)

(** Whenever the loop reports, the reported position is the current one
    stepped back by [step_size_temp], whatever step led there. *)
Lemma while_loop_backstep (self : CbloxMotionValidator.t)
    (start dir : Vector3d) (len step step_temp : float) (m : Mem) :
  forall (fuel : nat) (position : Vector3d) (b : bool) (m' : Mem),
    CbloxMotionValidator.while_loop fuel self start dir len step step_temp position m
    = Some (CbloxMotionValidator.Return b, m') ->
    exists current,
      let last_position := Eigen.sub current (Eigen.scale step_temp dir) in
      m' = report last_position
                  (PrimFloat.div (Eigen.norm (Eigen.sub last_position start)) len) m.
Proof.
  induction fuel as [| fuel IH]; intros position b m' H; simpl in H; [discriminate|].
  destruct (PrimFloat.ltb (Eigen.norm (Eigen.sub position start)) len); [|discriminate].
  destruct (CbloxValidityChecker.checkCollisionWithRobot _ position).
  - injection H as <- <-. exists position. reflexivity.
  - destruct (PrimFloat.ltb (CbloxValidityChecker.remainingDistanceToCollision _ position) step).
    + destruct (PrimFloat.ltb _ CbloxMotionValidator.near_zero).
      * injection H as <- <-. exists position. reflexivity.
      * exact (IH _ _ _ H).
    + exact (IH _ _ _ H).
Qed.

(** C2, on the code. The adaptive-stepping validator reports fractions
    outside [0, 1].  With step 0.5 on the segment from the origin to
    (0.25, 0, 0): a collision at the start reports the position
    (-0.5, 0, 0) and the fraction 2; a collision at the goal only reports
    the position (0.5, 0, 0), past the goal, and the fraction 2; and on a
    zero-length segment in collision the fraction is NaN. *)
Theorem cblox_fraction_outside_unit_interval :
  let goal := Scenario.on_x 0.25 in
  CbloxMotionValidator.checkMotion 1
    (Scenario.cblox_validator (Scenario.cube 100) 0.25 Scenario.blocked 1)
    Scenario.origin goal Scenario.slot =
  Some (false,
        mkMem (mkLastValid (Some (mkState (-0.5) 0 0)) 2)
              [WriteState (mkState (-0.5) 0 0); WriteFraction 2]) /\
  CbloxMotionValidator.checkMotion 2
    (Scenario.cblox_validator (Scenario.cube 100) 0.125 Scenario.blocked_at_quarter 1)
    Scenario.origin goal Scenario.slot =
  Some (false,
        mkMem (mkLastValid (Some (mkState 0.5 0 0)) 2)
              [WriteState (mkState 0.5 0 0); WriteFraction 2]) /\
  Spec.in_unit_interval 2 = false /\
  CbloxMotionValidator.checkMotion 1
    (Scenario.cblox_validator (Scenario.cube 100) 0.25 Scenario.blocked 1)
    Scenario.origin Scenario.origin Scenario.slot =
  Some (false,
        mkMem (mkLastValid (Some (mkState 0 0 0)) nan)
              [WriteState (mkState 0 0 0); WriteFraction nan]) /\
  Spec.in_unit_interval nan = false.
Proof. vm_compute. repeat split. Qed.

(** C3, on the code. With step 1 on the segment from the origin to
    (4, 0, 0) over [half_then_blocked]: the start is free with clearance
    0.5, so the first step is the clearance-limited step 0.5; the sample at
    (0.5, 0, 0) collides.  Stepping back by the step taken gives the origin
    and the fraction 0; the validator steps back by the nominal step 1 and
    reports (-0.5, 0, 0) and the fraction 0.125. *)
Theorem cblox_backstep_ignores_step_taken :
  let self := Scenario.cblox_validator (Scenario.cube 100) 0 Scenario.half_then_blocked 2 in
  let checker := CbloxMotionValidator.validity_checker_ self in
  let direction := mkVector3d 1 0 0 in
  let sample := mkVector3d 0.5 0 0 in
  CbloxValidityChecker.checkCollisionWithRobot checker (omplToEigen Scenario.origin) = false /\
  CbloxValidityChecker.remainingDistanceToCollision checker (omplToEigen Scenario.origin)
  = 0.5%float /\
  Eigen.add (omplToEigen Scenario.origin) (Eigen.scale 0.5 direction) = sample /\
  CbloxValidityChecker.checkCollisionWithRobot checker sample = true /\
  Eigen.sub sample (Eigen.scale 0.5 direction) = omplToEigen Scenario.origin /\
  CbloxMotionValidator.checkMotion 2 self Scenario.origin (Scenario.on_x 4) Scenario.slot =
  Some (false,
        mkMem (mkLastValid (Some (mkState (-0.5) 0 0)) 0.125)
              [WriteState (mkState (-0.5) 0 0); WriteFraction 0.125]).
Proof. vm_compute. repeat split. Qed.

(** * Further properties of the checkers and validators *)

(** ** Comparisons with a NaN *)

Lemma Prim2SF_nan (a : float) : is_nan a = true -> Prim2SF a = S754_nan.
Proof. intro H. unfold Prim2SF. rewrite H. reflexivity. Qed.

Lemma leb_nan_l (a b : float) : is_nan a = true -> PrimFloat.leb a b = false.
Proof. intro H. rewrite leb_spec, (Prim2SF_nan a H). reflexivity. Qed.

Lemma leb_nan_r (a b : float) : is_nan b = true -> PrimFloat.leb a b = false.
Proof.
  intro H. rewrite leb_spec, (Prim2SF_nan b H).
  unfold SFleb. destruct (Prim2SF a); reflexivity.
Qed.

Lemma geb_nan (r d : float) :
  is_nan r = true \/ is_nan d = true -> geb r d = false.
Proof. unfold geb. intros [H | H]; [apply leb_nan_r | apply leb_nan_l]; exact H. Qed.

(** ** The occupancy scan, voxel by voxel *)

Lemma voxel_hit_optimistic (layer : TsdfLayer) (block : TsdfBlock) (v : VoxelIndex) :
  Spec.voxel_hit layer false block v = true <->
  isValidVoxelIndex block v = true /\
  PrimFloat.ltb (weight (getVoxelByVoxelIndex block v)) (kEpsilon layer) = false /\
  PrimFloat.leb (tsdf_distance (getVoxelByVoxelIndex block v)) 0 = true.
Proof.
  unfold Spec.voxel_hit.
  destruct (isValidVoxelIndex block v); simpl.
  - destruct (PrimFloat.ltb _ _).
    + split; [discriminate | intros (_ & H & _); discriminate].
    + split; [intro H; repeat split; exact H | intros (_ & _ & H); exact H].
  - split; [discriminate | intros (H & _); discriminate].
Qed.

Lemma voxel_hit_conservative (layer : TsdfLayer) (block : TsdfBlock) (v : VoxelIndex) :
  Spec.voxel_hit layer true block v = true <->
  (isValidVoxelIndex block v = true ->
   PrimFloat.ltb (weight (getVoxelByVoxelIndex block v)) (kEpsilon layer) = false ->
   PrimFloat.leb (tsdf_distance (getVoxelByVoxelIndex block v)) 0 = true).
Proof.
  unfold Spec.voxel_hit.
  destruct (isValidVoxelIndex block v); simpl.
  - destruct (PrimFloat.ltb _ _).
    + split; [intros _ _ H; discriminate | reflexivity].
    + split; [intros H _ _; exact H | intro H; apply H; reflexivity].
  - split; [intros _ H; discriminate | reflexivity].
Qed.

Lemma voxel_hit_flag_mono (layer : TsdfLayer) (block : TsdfBlock) (v : VoxelIndex) :
  Spec.voxel_hit layer false block v = true ->
  Spec.voxel_hit layer true block v = true.
Proof.
  intro H. apply voxel_hit_optimistic in H as (_ & _ & H).
  apply voxel_hit_conservative. intros _ _. exact H.
Qed.

(** X1. TsdfVoxbloxValidityChecker::checkCollisionWithRobot, spelled out.
    With treat_unknown_as_occupied false it reports a collision exactly
    when some enumerated voxel of an allocated block has a valid index, a
    weight not below kEpsilon and a distance <= 0.  With the flag true it
    reports a collision exactly when some enumerated voxel of an allocated
    block is not such an observed voxel with a positive distance. *)
Theorem tsdf_collision_characterised
    (self : TsdfVoxbloxValidityChecker.t) (robot_position : Vector3d) :
  let layer := TsdfVoxbloxValidityChecker.layer_ self in
  let enumerated (b : BlockIndex) (block : TsdfBlock) (v : VoxelIndex) :=
    exists vs, In (b, vs) (Spec.sphere self robot_position) /\ In v vs /\
               getBlockPtrByIndex layer b = Some block in
  let observed (block : TsdfBlock) (v : VoxelIndex) :=
    isValidVoxelIndex block v = true /\
    PrimFloat.ltb (weight (getVoxelByVoxelIndex block v)) (kEpsilon layer) = false in
  let inside (block : TsdfBlock) (v : VoxelIndex) :=
    PrimFloat.leb (tsdf_distance (getVoxelByVoxelIndex block v)) 0 = true in
  (TsdfVoxbloxValidityChecker.checkCollisionWithRobot
     (TsdfVoxbloxValidityChecker.setTreatUnknownAsOccupied false self) robot_position = true
   <-> exists b block v, enumerated b block v /\ observed block v /\ inside block v) /\
  (TsdfVoxbloxValidityChecker.checkCollisionWithRobot
     (TsdfVoxbloxValidityChecker.setTreatUnknownAsOccupied true self) robot_position = true
   <-> exists b block v, enumerated b block v /\ (observed block v -> inside block v)).
Proof.
  intros layer enumerated observed inside.
  unfold TsdfVoxbloxValidityChecker.checkCollisionWithRobot.
  change (getSphereAroundPoint _ _
            (cast_float (TsdfVoxbloxValidityChecker.robot_radius_
               (TsdfVoxbloxValidityChecker.setTreatUnknownAsOccupied false self))))
    with (Spec.sphere self robot_position).
  change (getSphereAroundPoint _ _
            (cast_float (TsdfVoxbloxValidityChecker.robot_radius_
               (TsdfVoxbloxValidityChecker.setTreatUnknownAsOccupied true self))))
    with (Spec.sphere self robot_position).
  rewrite !block_loop_true. simpl. fold layer.
  split; split.
  - intros (b & vs & block & v & Hin & Hb & Hv & Hhit).
    apply voxel_hit_optimistic in Hhit as (H1 & H2 & H3).
    exists b, block, v. repeat split; try assumption.
    exists vs. auto.
  - intros (b & block & v & (vs & Hin & Hv & Hb) & (H1 & H2) & H3).
    exists b, vs, block, v. repeat split; try assumption.
    apply voxel_hit_optimistic. auto.
  - intros (b & vs & block & v & Hin & Hb & Hv & Hhit).
    exists b, block, v. split; [exists vs; auto|].
    intros (H1 & H2). exact (proj1 (voxel_hit_conservative layer block v) Hhit H1 H2).
  - intros (b & block & v & (vs & Hin & Hv & Hb) & H).
    exists b, vs, block, v. repeat split; try assumption.
    apply voxel_hit_conservative. intros H1 H2. apply H. split; assumption.
Qed.

(** X2. Setting treat_unknown_as_occupied never clears a collision: a
    position in collision with the flag false is in collision with the flag
    true, so the conservative checker rejects every state the optimistic
    one rejects. *)
Theorem tsdf_flag_is_conservative
    (self : TsdfVoxbloxValidityChecker.t) (state : State) :
  let optimistic := TsdfVoxbloxValidityChecker.setTreatUnknownAsOccupied false self in
  let conservative := TsdfVoxbloxValidityChecker.setTreatUnknownAsOccupied true self in
  (TsdfVoxbloxValidityChecker.checkCollisionWithRobot optimistic (omplToEigen state) = true ->
   TsdfVoxbloxValidityChecker.checkCollisionWithRobot conservative (omplToEigen state) = true) /\
  (VoxbloxValidityChecker.isValid (TsdfVoxbloxValidityChecker.checker optimistic) state = false ->
   VoxbloxValidityChecker.isValid (TsdfVoxbloxValidityChecker.checker conservative) state = false).
Proof.
  intros optimistic conservative.
  assert (Hc : TsdfVoxbloxValidityChecker.checkCollisionWithRobot optimistic (omplToEigen state) = true ->
               TsdfVoxbloxValidityChecker.checkCollisionWithRobot conservative (omplToEigen state) = true).
  { unfold TsdfVoxbloxValidityChecker.checkCollisionWithRobot.
    rewrite !block_loop_true. simpl.
    intros (b & vs & block & v & Hin & Hb & Hv & Hhit).
    exists b, vs, block, v. repeat split; try assumption.
    apply voxel_hit_flag_mono, Hhit. }
  split; [exact Hc|].
  apply isValid_mono; [reflexivity | exact Hc].
Qed.

Lemma tsdf_flag_is_conservative_witness :
  VoxbloxValidityChecker.isValid
    (TsdfVoxbloxValidityChecker.checker
       (TsdfVoxbloxValidityChecker.setTreatUnknownAsOccupied true
          (Scenario.tsdf_checker Scenario.wall_layer 1))) Scenario.origin = false.
Proof.
  apply (proj2 (tsdf_flag_is_conservative
                  (Scenario.tsdf_checker Scenario.wall_layer 1) Scenario.origin)).
  reflexivity.
Defined.

(** ** Iteration order of the occupancy scan *)

Lemma existsb_Permutation (A : Type) (f : A -> bool) (l l' : list A) :
  Permutation l l' -> existsb f l = existsb f l'.
Proof.
  induction 1 as [| a l l' _ IH | a b l | l l' l'' _ IH1 _ IH2]; simpl.
  - reflexivity.
  - rewrite IH. reflexivity.
  - destruct (f a), (f b); reflexivity.
  - rewrite IH1. exact IH2.
Qed.

(** X3. The verdict of the occupancy scan does not depend on the order in
    which the enumerated blocks, or the voxels of a block, are visited. *)
Theorem tsdf_scan_order_irrelevant (self : TsdfVoxbloxValidityChecker.t) :
  (forall (block : TsdfBlock) (l l' : list VoxelIndex),
     Permutation l l' ->
     TsdfVoxbloxValidityChecker.voxel_loop self block l =
     TsdfVoxbloxValidityChecker.voxel_loop self block l') /\
  (forall (l l' : HierarchicalIndexMap),
     Permutation l l' ->
     TsdfVoxbloxValidityChecker.block_loop self l =
     TsdfVoxbloxValidityChecker.block_loop self l').
Proof.
  split.
  - intros block l l' H. rewrite !voxel_loop_existsb.
    apply existsb_Permutation, H.
  - intros l l' H. rewrite !block_loop_existsb.
    apply existsb_Permutation, H.
Qed.

Lemma tsdf_scan_order_irrelevant_witness :
  TsdfVoxbloxValidityChecker.block_loop
    (Scenario.tsdf_checker Scenario.wall_layer 1) Edge.sphere_one_way =
  TsdfVoxbloxValidityChecker.block_loop
    (Scenario.tsdf_checker Scenario.wall_layer 1) Edge.sphere_other_way.
Proof.
  apply (proj2 (tsdf_scan_order_irrelevant (Scenario.tsdf_checker Scenario.wall_layer 1))).
  apply perm_swap.
Defined.

(** ** The grid-traversal validator *)

(** X4. VoxbloxMotionValidator::checkMotion answers valid exactly when
    checkCollisionWithRobotAtVoxel is false at every index the ray caster
    yields; in particular a ray with no index is valid, and neither end
    state is checked otherwise. *)
Theorem grid_motion_valid_iff_all_free
    (self : VoxbloxMotionValidator.t) (s1 s2 : State) (m : Mem) :
  (fst (VoxbloxMotionValidator.checkMotion self s1 s2 m) = true <->
   forall g, In g (VoxbloxMotionValidator.indices self s1 s2) ->
     VoxbloxValidityChecker.checkCollisionWithRobotAtVoxel
       (VoxbloxMotionValidator.validity_checker_ self) g = false) /\
  (VoxbloxMotionValidator.indices self s1 s2 = [] ->
   VoxbloxMotionValidator.checkMotion self s1 s2 m = (true, m)).
Proof.
  split.
  - unfold VoxbloxMotionValidator.checkMotion. rewrite for_loop_verdict.
    rewrite negb_true_iff. split.
    + intros H g Hin.
      destruct (VoxbloxValidityChecker.checkCollisionWithRobotAtVoxel _ g) eqn:Hg;
        [|reflexivity].
      rewrite <- H. symmetry. apply existsb_exists. exists g. auto.
    + intro H.
      destruct (existsb _ (VoxbloxMotionValidator.indices self s1 s2)) eqn:He;
        [|reflexivity].
      apply existsb_exists in He as (g & Hin & Hg).
      rewrite (H g Hin) in Hg. discriminate.
  - intro H. unfold VoxbloxMotionValidator.checkMotion. rewrite H. reflexivity.
Qed.

Lemma grid_motion_valid_iff_all_free_witness :
  VoxbloxMotionValidator.checkMotion
    (VoxbloxMotionValidator.mk
       (EsdfVoxbloxValidityChecker.checker (Scenario.esdf_checker (Scenario.cube 100) 0.5))
       (fun _ _ => []))
    Scenario.origin (Scenario.on_x 2) Scenario.slot = (true, Scenario.slot).
Proof.
  apply (proj2 (grid_motion_valid_iff_all_free
                  (VoxbloxMotionValidator.mk
                     (EsdfVoxbloxValidityChecker.checker
                        (Scenario.esdf_checker (Scenario.cube 100) 0.5))
                     (fun _ _ => []))
                  Scenario.origin (Scenario.on_x 2) Scenario.slot)).
  reflexivity.
Defined.

(** X5. Over the signed-distance checker the grid-traversal validator fails
    closed along the whole ray: a motion whose ray passes an index with no
    voxel in the layer is invalid, whatever the radius. *)
Theorem grid_motion_rejects_unallocated_voxel
    (checker : EsdfVoxbloxValidityChecker.t)
    (castRay : Point -> Point -> list GlobalIndex)
    (s1 s2 : State) (m : Mem) (g : GlobalIndex) :
  let self :=
    VoxbloxMotionValidator.mk (EsdfVoxbloxValidityChecker.checker checker) castRay in
  In g (VoxbloxMotionValidator.indices self s1 s2) ->
  getVoxelPtrByGlobalIndex (EsdfVoxbloxValidityChecker.layer_ checker) g = None ->
  fst (VoxbloxMotionValidator.checkMotion self s1 s2 m) = false.
Proof.
  intros self Hin Hnone.
  unfold VoxbloxMotionValidator.checkMotion. rewrite for_loop_verdict.
  apply negb_false_iff, existsb_exists. exists g. split; [exact Hin|].
  simpl. unfold EsdfVoxbloxValidityChecker.checkCollisionWithRobotAtVoxel.
  rewrite Hnone. reflexivity.
Qed.

Lemma grid_motion_rejects_unallocated_voxel_witness :
  fst (VoxbloxMotionValidator.checkMotion
         (VoxbloxMotionValidator.mk
            (EsdfVoxbloxValidityChecker.checker
               (Scenario.esdf_checker (Scenario.cube 100) 0.5))
            (fun _ _ => [mkIndex3 0 0 0; mkIndex3 0 1 0]))
         Scenario.origin (mkState 0 1 0) Scenario.slot) = false.
Proof.
  apply (grid_motion_rejects_unallocated_voxel
           (Scenario.esdf_checker (Scenario.cube 100) 0.5)
           (fun _ _ => [mkIndex3 0 0 0; mkIndex3 0 1 0])
           Scenario.origin (mkState 0 1 0) Scenario.slot (mkIndex3 0 1 0)).
  - right. left. reflexivity.
  - reflexivity.
Defined.

(** X6. Every fraction the grid-traversal validator stores on failure is 0,
    wherever along the ray the collision is. *)
Theorem grid_fraction_always_zero (self : VoxbloxMotionValidator.t)
    (s1 s2 : State) (m m' : Mem) :
  VoxbloxMotionValidator.checkMotion self s1 s2 m = (false, m') ->
  second (last_valid m') = 0%float.
Proof.
  unfold VoxbloxMotionValidator.checkMotion. intro H.
  apply for_loop_fraction_zero in H; [exact H | reflexivity].
Qed.

Lemma grid_fraction_always_zero_witness :
  second (last_valid
            (mkMem (mkLastValid (Some (mkState 2 0 0)) 0)
                   [WriteState (mkState 2 0 0); WriteFraction 0])) = 0%float.
Proof.
  apply (grid_fraction_always_zero
           (Scenario.grid_validator (Scenario.cube 100) 0.5)
           Scenario.origin (Scenario.on_x 2) Scenario.slot).
  reflexivity.
Defined.

(** ** The output pair and the verdict *)

Lemma while_loop_exit_ignores_mem (self : CbloxMotionValidator.t)
    (start dir : Vector3d) (len step step_temp : float) (m1 m2 : Mem) :
  forall (fuel : nat) (position : Vector3d),
    option_map fst
      (CbloxMotionValidator.while_loop fuel self start dir len step step_temp position m1) =
    option_map fst
      (CbloxMotionValidator.while_loop fuel self start dir len step step_temp position m2).
Proof.
  induction fuel as [| fuel IH]; intro position; simpl; [reflexivity|].
  destruct (PrimFloat.ltb (Eigen.norm (Eigen.sub position start)) len); [|reflexivity].
  destruct (CbloxValidityChecker.checkCollisionWithRobot _ position); [reflexivity|].
  destruct (PrimFloat.ltb (CbloxValidityChecker.remainingDistanceToCollision _ position) step).
  - destruct (PrimFloat.ltb _ CbloxMotionValidator.near_zero); [reflexivity | apply IH].
  - apply IH.
Qed.

(** X7. The verdict of checkMotion does not depend on the last_valid pair
    it is given: for both validators the three-argument form answers what
    the two-argument form answers, whether the state slot is null or not
    and whatever the pair holds. *)
Theorem checkMotion_verdict_ignores_last_valid :
  (forall (self : VoxbloxMotionValidator.t) (s1 s2 : State) (m : Mem),
     fst (VoxbloxMotionValidator.checkMotion self s1 s2 m) =
     VoxbloxMotionValidator.checkMotion2 self s1 s2) /\
  (forall (fuel : nat) (self : CbloxMotionValidator.t) (s1 s2 : State) (m : Mem),
     option_map fst (CbloxMotionValidator.checkMotion fuel self s1 s2 m) =
     CbloxMotionValidator.checkMotion2 fuel self s1 s2).
Proof.
  split.
  - intros self s1 s2 m.
    unfold VoxbloxMotionValidator.checkMotion2, VoxbloxMotionValidator.checkMotion.
    rewrite !for_loop_verdict. reflexivity.
  - intros fuel self s1 s2 m.
    unfold CbloxMotionValidator.checkMotion2, CbloxMotionValidator.checkMotion.
    pose proof (while_loop_exit_ignores_mem self (omplToEigen s1)
                  (Eigen.normalized (Eigen.sub (omplToEigen s2) (omplToEigen s1)))
                  (Eigen.norm (Eigen.sub (omplToEigen s2) (omplToEigen s1)))
                  (cast_float (PrimFloat.div (CbloxMotionValidator.voxel_size_ self) 2))
                  (cast_float (PrimFloat.div (CbloxMotionValidator.voxel_size_ self) 2))
                  m unused fuel (omplToEigen s1)) as H.
    destruct (CbloxMotionValidator.while_loop fuel self _ _ _ _ _ _ m) as [[e1 m1] |];
      destruct (CbloxMotionValidator.while_loop fuel self _ _ _ _ _ _ unused) as [[e2 m2] |];
      simpl in H; try discriminate; [|reflexivity].
    injection H as <-.
    destruct e1 as [b | p]; [reflexivity|].
    destruct (CbloxValidityChecker.checkCollisionWithRobot _ _); reflexivity.
Qed.

(** ** The adaptive-stepping validator *)

(** X8. Whenever CbloxMotionValidator::checkMotion answers invalid, the
    fraction it stores is the distance from the start to the position it
    reports, divided by the length of the segment: the two outputs always
    belong together. *)
Theorem cblox_failure_fraction_matches_position
    (fuel : nat) (self : CbloxMotionValidator.t) (s1 s2 : State) (m m' : Mem) :
  let start := omplToEigen s1 in
  let ray_length := Eigen.norm (Eigen.sub (omplToEigen s2) start) in
  CbloxMotionValidator.checkMotion fuel self s1 s2 m = Some (false, m') ->
  exists reported,
    m' = report reported
                (PrimFloat.div (Eigen.norm (Eigen.sub reported start)) ray_length) m.
Proof.
  intros start ray_length H.
  unfold CbloxMotionValidator.checkMotion in H.
  destruct (CbloxMotionValidator.while_loop _ _ _ _ _ _ _ _ _)
    as [[[b | p] m1] |] eqn:Hloop; [| |discriminate].
  - injection H as -> <-.
    apply while_loop_backstep in Hloop as (current & ->).
    eexists. reflexivity.
  - apply while_loop_cases in Hloop as [(q & Hq & ->) | (pos & f & Hq & _)];
      [|discriminate].
    destruct (CbloxValidityChecker.checkCollisionWithRobot _ _); [|discriminate].
    injection H as <-. exists p. reflexivity.
Qed.

Lemma cblox_failure_fraction_matches_position_witness :
  exists reported,
    mkMem (mkLastValid (Some (mkState (-0.5) 0 0)) 0.125)
          [WriteState (mkState (-0.5) 0 0); WriteFraction 0.125] =
    report reported
      (PrimFloat.div
         (Eigen.norm (Eigen.sub reported (omplToEigen Scenario.origin)))
         (Eigen.norm (Eigen.sub (omplToEigen (Scenario.on_x 4)) (omplToEigen Scenario.origin))))
      Scenario.slot.
Proof.
  apply (cblox_failure_fraction_matches_position 2
           (Scenario.cblox_validator (Scenario.cube 100) 0 Scenario.half_then_blocked 2)
           Scenario.origin (Scenario.on_x 4) Scenario.slot).
  reflexivity.
Defined.

(** X9. A motion CbloxMotionValidator::checkMotion accepts has a
    collision-free goal, and, unless the segment has no length, a
    collision-free start whose remaining clearance is not below the
    near-zero threshold when it is below the step. *)
Theorem cblox_valid_motion_has_free_endpoints
    (fuel : nat) (self : CbloxMotionValidator.t) (s1 s2 : State) (m m' : Mem) :
  let checker := CbloxMotionValidator.validity_checker_ self in
  let start := omplToEigen s1 in
  let goal := omplToEigen s2 in
  CbloxMotionValidator.checkMotion fuel self s1 s2 m = Some (true, m') ->
  CbloxValidityChecker.checkCollisionWithRobot checker goal = false /\
  (PrimFloat.ltb (Eigen.norm (Eigen.sub start start))
                 (Eigen.norm (Eigen.sub goal start)) = true ->
   CbloxValidityChecker.checkCollisionWithRobot checker start = false /\
   (PrimFloat.ltb (CbloxValidityChecker.remainingDistanceToCollision checker start)
                  (cast_float (PrimFloat.div (CbloxMotionValidator.voxel_size_ self) 2))
    = true ->
    PrimFloat.ltb (CbloxValidityChecker.remainingDistanceToCollision checker start)
                  CbloxMotionValidator.near_zero = false)).
Proof.
  intros checker start goal H.
  unfold CbloxMotionValidator.checkMotion in H. fold start goal checker in H.
  destruct (CbloxMotionValidator.while_loop _ _ _ _ _ _ _ _ _)
    as [[[b | p] m1] |] eqn:Hloop; [| |discriminate].
  - apply while_loop_cases in Hloop as [(q & Hq & _) | (pos & f & Hq & _)];
      [discriminate|].
    injection Hq as ->. discriminate.
  - split.
    + destruct (CbloxValidityChecker.checkCollisionWithRobot checker goal);
        [discriminate | reflexivity].
    + intro Hlen. destruct fuel as [| fuel]; simpl in Hloop; [discriminate|].
      rewrite Hlen in Hloop. fold checker in Hloop.
      destruct (CbloxValidityChecker.checkCollisionWithRobot checker start);
        [discriminate|].
      split; [reflexivity|].
      intro Hstep. rewrite Hstep in Hloop.
      destruct (PrimFloat.ltb
                  (CbloxValidityChecker.remainingDistanceToCollision checker start)
                  CbloxMotionValidator.near_zero); [discriminate | reflexivity].
Qed.

Lemma cblox_valid_motion_has_free_endpoints_witness :
  CbloxValidityChecker.checkCollisionWithRobot
    (CbloxValidityChecker.mk (Scenario.cube 100) 0.5 Scenario.thin_wall)
    (omplToEigen (Scenario.on_x 4)) = false.
Proof.
  assert (H : CbloxMotionValidator.checkMotion 9
                (Scenario.cblox_validator (Scenario.cube 100) 0.5 Scenario.thin_wall 2)
                Scenario.origin (Scenario.on_x 4) Scenario.slot
              = Some (true, Scenario.slot)) by reflexivity.
  exact (proj1 (cblox_valid_motion_has_free_endpoints 9
                  (Scenario.cblox_validator (Scenario.cube 100) 0.5 Scenario.thin_wall 2)
                  Scenario.origin (Scenario.on_x 4) Scenario.slot Scenario.slot H)).
Defined.

(** X10. When the start of a segment of positive length is in collision,
    CbloxMotionValidator::checkMotion answers invalid in its first
    iteration and reports the start stepped back by the nominal step
    against the ray direction, a position that is not on the segment. *)
Theorem cblox_collision_at_start
    (fuel : nat) (self : CbloxMotionValidator.t) (s1 s2 : State) (m : Mem) :
  let checker := CbloxMotionValidator.validity_checker_ self in
  let start := omplToEigen s1 in
  let goal := omplToEigen s2 in
  let ray_direction := Eigen.normalized (Eigen.sub goal start) in
  let ray_length := Eigen.norm (Eigen.sub goal start) in
  let step_size := cast_float (PrimFloat.div (CbloxMotionValidator.voxel_size_ self) 2) in
  let last_position := Eigen.sub start (Eigen.scale step_size ray_direction) in
  PrimFloat.ltb (Eigen.norm (Eigen.sub start start)) ray_length = true ->
  CbloxValidityChecker.checkCollisionWithRobot checker start = true ->
  CbloxMotionValidator.checkMotion (S fuel) self s1 s2 m =
  Some (false,
        report last_position
               (PrimFloat.div (Eigen.norm (Eigen.sub last_position start)) ray_length) m).
Proof.
  intros checker start goal ray_direction ray_length step_size last_position Hlen Hc.
  unfold CbloxMotionValidator.checkMotion. simpl.
  fold start goal. fold ray_length. rewrite Hlen.
  fold checker. rewrite Hc. reflexivity.
Qed.

Lemma cblox_collision_at_start_witness :
  CbloxMotionValidator.checkMotion 1
    (Scenario.cblox_validator (Scenario.cube 100) 0.25 Scenario.blocked 1)
    Scenario.origin (Scenario.on_x 4) Scenario.no_slot =
  Some (false, mkMem (mkLastValid None 0.125) [WriteFraction 0.125]).
Proof.
  apply (cblox_collision_at_start 0
           (Scenario.cblox_validator (Scenario.cube 100) 0.25 Scenario.blocked 1)
           Scenario.origin (Scenario.on_x 4) Scenario.no_slot);
    reflexivity.
Defined.

(** The loop does not end at a position it cannot leave. *)
Lemma while_loop_stalls (self : CbloxMotionValidator.t)
    (start dir : Vector3d) (len step step_temp : float) (position : Vector3d) (m : Mem) :
  let checker := CbloxMotionValidator.validity_checker_ self in
  let remaining := CbloxValidityChecker.remainingDistanceToCollision checker position in
  PrimFloat.ltb (Eigen.norm (Eigen.sub position start)) len = true ->
  CbloxValidityChecker.checkCollisionWithRobot checker position = false ->
  PrimFloat.ltb remaining step && PrimFloat.ltb remaining CbloxMotionValidator.near_zero
  = false ->
  Eigen.add position
    (Eigen.scale (if PrimFloat.ltb remaining step then remaining else step) dir)
  = position ->
  forall fuel : nat,
    CbloxMotionValidator.while_loop fuel self start dir len step step_temp position m = None.
Proof.
  intros checker remaining Hlen Hc Hnear Hfix.
  induction fuel as [| fuel IH]; simpl; [reflexivity|].
  rewrite Hlen. fold checker. rewrite Hc. fold remaining.
  destruct (PrimFloat.ltb remaining step); simpl in Hnear.
  - rewrite Hnear, Hfix. exact IH.
  - rewrite Hfix. exact IH.
Qed.

(** X11. CbloxMotionValidator::checkMotion does not return when the first
    step leaves the position unchanged: if the start of a segment of
    positive length is free, its clearance is not below both the step and
    the near-zero threshold, and adding the step taken along the ray
    direction to the start gives the start again (a step of size 0, or one
    absorbed by rounding at large coordinates), then no number of
    iterations ends the loop. *)
Theorem cblox_motion_stalls_when_step_is_absorbed
    (fuel : nat) (self : CbloxMotionValidator.t) (s1 s2 : State) (m : Mem) :
  let checker := CbloxMotionValidator.validity_checker_ self in
  let start := omplToEigen s1 in
  let goal := omplToEigen s2 in
  let ray_direction := Eigen.normalized (Eigen.sub goal start) in
  let step_size := cast_float (PrimFloat.div (CbloxMotionValidator.voxel_size_ self) 2) in
  let remaining := CbloxValidityChecker.remainingDistanceToCollision checker start in
  PrimFloat.ltb (Eigen.norm (Eigen.sub start start))
                (Eigen.norm (Eigen.sub goal start)) = true ->
  CbloxValidityChecker.checkCollisionWithRobot checker start = false ->
  PrimFloat.ltb remaining step_size && PrimFloat.ltb remaining CbloxMotionValidator.near_zero
  = false ->
  Eigen.add start
    (Eigen.scale (if PrimFloat.ltb remaining step_size then remaining else step_size)
                 ray_direction)
  = start ->
  CbloxMotionValidator.checkMotion fuel self s1 s2 m = None.
Proof.
  intros checker start goal ray_direction step_size remaining Hlen Hc Hnear Hfix.
  unfold CbloxMotionValidator.checkMotion.
  fold start goal. fold ray_direction. fold step_size.
  rewrite (while_loop_stalls self start ray_direction
             (Eigen.norm (Eigen.sub goal start)) step_size step_size start m
             Hlen Hc Hnear Hfix fuel).
  reflexivity.
Qed.

Lemma cblox_motion_stalls_when_step_is_absorbed_witness :
  CbloxMotionValidator.checkMotion 1000
    (Scenario.cblox_validator (Scenario.cube 0x1p+62) 0.5 Scenario.clear 1)
    Edge.remote_start Edge.remote_goal Scenario.slot = None.
Proof.
  apply (cblox_motion_stalls_when_step_is_absorbed 1000
           (Scenario.cblox_validator (Scenario.cube 0x1p+62) 0.5 Scenario.clear 1)
           Edge.remote_start Edge.remote_goal Scenario.slot);
    reflexivity.
Defined.

(** ** Distances that are not numbers *)

(** X12. The threshold test robot_radius >= distance is false when either
    side is a NaN, so a NaN distance is not a collision: the cblox checker
    and both paths of the signed-distance checker fail closed on a missing
    distance only, not on an undefined one. *)
Theorem nan_distance_is_not_a_collision :
  (forall (self : CbloxValidityChecker.t) (p : Vector3d),
     is_nan (CbloxValidityChecker.robot_radius_ self) = true \/
     is_nan (CbloxValidityChecker.get_map_distance_ self p) = true ->
     CbloxValidityChecker.checkCollisionWithRobot self p = false) /\
  (forall (self : EsdfVoxbloxValidityChecker.t) (p : Vector3d) (d : float),
     getDistance (EsdfVoxbloxValidityChecker.layer_ self) (Eigen.cast_point p) false
     = Some d ->
     is_nan (EsdfVoxbloxValidityChecker.robot_radius_ self) = true \/ is_nan d = true ->
     EsdfVoxbloxValidityChecker.checkCollisionWithRobot self p = false) /\
  (forall (self : EsdfVoxbloxValidityChecker.t) (g : GlobalIndex) (voxel : EsdfVoxel),
     getVoxelPtrByGlobalIndex (EsdfVoxbloxValidityChecker.layer_ self) g = Some voxel ->
     is_nan (EsdfVoxbloxValidityChecker.robot_radius_ self) = true \/
     is_nan (distance voxel) = true ->
     EsdfVoxbloxValidityChecker.checkCollisionWithRobotAtVoxel self g = false).
Proof.
  split; [|split].
  - intros self p H. unfold CbloxValidityChecker.checkCollisionWithRobot.
    apply geb_nan, H.
  - intros self p d Hd H.
    unfold EsdfVoxbloxValidityChecker.checkCollisionWithRobot. rewrite Hd.
    apply geb_nan, H.
  - intros self g voxel Hv H.
    unfold EsdfVoxbloxValidityChecker.checkCollisionWithRobotAtVoxel. rewrite Hv.
    apply geb_nan, H.
Qed.

Lemma nan_distance_is_not_a_collision_witness :
  CbloxValidityChecker.checkCollisionWithRobot
    (CbloxValidityChecker.mk (Scenario.cube 100) 0.5 Edge.undefined_distance)
    (omplToEigen Scenario.origin) = false /\
  EsdfVoxbloxValidityChecker.checkCollisionWithRobotAtVoxel
    (EsdfVoxbloxValidityChecker.mk (Scenario.cube 100) 0.5 Edge.nan_layer)
    (mkIndex3 0 0 0) = false.
Proof.
  split.
  - apply (proj1 nan_distance_is_not_a_collision
             (CbloxValidityChecker.mk (Scenario.cube 100) 0.5 Edge.undefined_distance)
             (omplToEigen Scenario.origin)).
    right. reflexivity.
  - apply (proj2 (proj2 nan_distance_is_not_a_collision)
             (EsdfVoxbloxValidityChecker.mk (Scenario.cube 100) 0.5 Edge.nan_layer)
             (mkIndex3 0 0 0) (mkEsdfVoxel nan)).
    + reflexivity.
    + right. reflexivity.
Defined.
